(** * SpacyEncoder: the spaCy adapter of torchnlp's static-vocabulary encoder

    A shallow embedding of [torchnlp/encoders/text/spacy_encoder.py]:
    the module-level helper [_tokenize], the constructor
    [SpacyEncoder.__init__] and the batch path [SpacyEncoder.batch_encode].

    Python values, exceptions and [%]-formatting are modelled in [Module Py],
    the consumed part of spaCy (a loaded [Language], its tokens, [spacy.load])
    in [Module spacy], [torch.tensor] in [Module torch].  The base class
    [StaticTokenizerEncoder] is not part of the embedded file: its constructor
    is a variable of the section, its [encode] is modelled on its own. *)

From stdpp Require Import gmap strings list pretty.
From Stdlib Require Import Ascii HexadecimalString.

Local Open Scope Z_scope.

(** ** Python values, exceptions, results *)

Module Py.

(** The values that reach the constructor through [args] and [kwargs]:
    the sample (a list of strings), thresholds and indices (ints), flags
    (bools), the language code (a string), a tokenizing function.  A [str]
    is the sequence of its code points, each one below 256 and held in one
    character. *)
#[warnings="-register-all"] Inductive PyVal :=
| PyNone
| PyBool (b : bool)
| PyInt (z : Z)
| PyStr (s : string)
| PyList (l : list PyVal)
| PyFunction (name : string) (addr : N) (f : string -> list string).

(** [x == y].  [bool] is a subclass of [int] in Python ([True == 1]);
    functions compare by identity. *)
Fixpoint py_eq (x y : PyVal) : bool :=
  match x, y with
  | PyNone, PyNone => true
  | PyBool a, PyBool b => bool_decide (a = b)
  | PyBool a, PyInt z | PyInt z, PyBool a => bool_decide (z = if a then 1 else 0)
  | PyInt a, PyInt b => bool_decide (a = b)
  | PyStr a, PyStr b => bool_decide (a = b)
  | PyList a, PyList b =>
      (fix go (a b : list PyVal) : bool :=
         match a, b with
         | [], [] => true
         | x :: a, y :: b => py_eq x y && go a b
         | _, _ => false
         end) a b
  | PyFunction _ a _, PyFunction _ b _ => bool_decide (a = b)
  | _, _ => false
  end.

(** [x in l] for a list [l]: some element is [==] to [x]. *)
Definition py_in (x : PyVal) (l : list PyVal) : bool := existsb (py_eq x) l.

Definition quote : ascii := "'"%char.
Definition dquote : ascii := "034"%char.
Definition backslash : ascii := "\"%char.

Fixpoint mem_char (c : ascii) (s : string) : bool :=
  match s with
  | EmptyString => false
  | String d s => bool_decide (c = d) || mem_char c s
  end.

Definition hex_digit (n : N) : string := NilEmpty.string_of_uint (N.to_hex_uint n).

(** [chr(n).isprintable()] for a code point below 256: the controls below
    32, DEL, the controls from 128 to 159, the no-break space (160) and the
    soft hyphen (173) are not printable. *)
Definition isprintable (n : N) : bool :=
  negb (bool_decide (n < 32)%N || bool_decide (n = 127)%N
        || (bool_decide (128 <= n)%N && bool_decide (n <= 160)%N)
        || bool_decide (n = 173)%N).

(** One character of [repr] of a [str], inside quotes [q]. *)
Definition repr_char (q c : ascii) : string :=
  let n := N_of_ascii c in
  if bool_decide (c = q) || bool_decide (c = backslash)
  then String backslash (String c EmptyString)
  else if bool_decide (n = 9%N) then "\t"
  else if bool_decide (n = 10%N) then "\n"
  else if bool_decide (n = 13%N) then "\r"
  else if negb (isprintable n)
       then "\x" +:+ hex_digit (n / 16) +:+ hex_digit (n mod 16)
  else String c EmptyString.

Fixpoint repr_chars (q : ascii) (s : string) : string :=
  match s with
  | EmptyString => EmptyString
  | String c s => repr_char q c +:+ repr_chars q s
  end.

(** [repr] of a [str]: single quotes, unless the text holds a single quote
    and no double quote; a character that is not printable is escaped. *)
Definition repr_str (s : string) : string :=
  let q := if mem_char quote s && negb (mem_char dquote s) then dquote else quote in
  String q (repr_chars q s +:+ String q EmptyString).

Definition str_function (name : string) (addr : N) : string :=
  "<function " +:+ name +:+ " at 0x" +:+ NilEmpty.string_of_uint (N.to_hex_uint addr) +:+ ">".

Fixpoint repr (x : PyVal) : string :=
  match x with
  | PyNone => "None"
  | PyBool b => if b then "True" else "False"
  | PyInt z => pretty z
  | PyStr s => repr_str s
  | PyList l => "[" +:+ String.concat ", " (map repr l) +:+ "]"
  | PyFunction name addr _ => str_function name addr
  end.

(** [str(x)], which is what [%s] and [{0}] insert. *)
Definition str (x : PyVal) : string :=
  match x with
  | PyStr s => s
  | _ => repr x
  end.

(** The exception classes the constructor meets, with the part of the
    class hierarchy that its [except] clauses see. *)
Inductive ExcType :=
| TypeError
| ValueError
| ImportError
| ModuleNotFoundError
| OSError
| FileNotFoundError
| RuntimeError.

Global Instance ExcType_eq_dec : EqDecision ExcType.
Proof. solve_decision. Defined.

Definition issubclass (t base : ExcType) : bool :=
  bool_decide (t = base)
  || match t, base with
     | ModuleNotFoundError, ImportError => true
     | FileNotFoundError, OSError => true
     | _, _ => false
     end.

Record PyExc := mkExc { exc_type : ExcType; exc_msg : string }.

Global Instance PyExc_eq_dec : EqDecision PyExc.
Proof. solve_decision. Defined.

(** The outcome of a call: a value, or a raised exception. *)
Inductive PyResult (A : Type) :=
| Ok (a : A)
| Raise (e : PyExc).
Global Arguments Ok {A} a.
Global Arguments Raise {A} e.

Global Instance PyResult_ret : MRet PyResult := fun _ a => Ok a.
Global Instance PyResult_bind : MBind PyResult := fun _ _ f r =>
  match r with
  | Ok a => f a
  | Raise e => Raise e
  end.
Global Instance PyResult_fmap : FMap PyResult := fun _ _ f r =>
  match r with
  | Ok a => Ok (f a)
  | Raise e => Raise e
  end.

(** What iterating a generator shows: the items it yields, in order, and
    the exception that ends it when it does not end by returning.  (A call
    that raises before it hands out the generator shows as a generator that
    raises before its first item.) *)
Record Generator (A : Type) := mkGenerator {
  yields : list A;
  raised : option PyExc
}.
Global Arguments mkGenerator {A} yields raised.
Global Arguments yields {A} g.
Global Arguments raised {A} g.

(** The generator [(f(x) for x in l)]: the results in order, up to the
    first call that raises. *)
Fixpoint stream {A B} (f : A -> PyResult B) (l : list A) : Generator B :=
  match l with
  | [] => mkGenerator [] None
  | x :: l =>
      match f x with
      | Ok y => let g := stream f l in mkGenerator (y :: yields g) (raised g)
      | Raise e => mkGenerator [] (Some e)
      end
  end.

(** [d.get(key, default)]: the stored value, the default for an absent
    key. *)
Definition dict_get {V} (d : gmap string V) (key : string) (default : V) : V :=
  match d !! key with
  | Some v => v
  | None => default
  end.

(** [key in d]. *)
Definition dict_contains {V} (d : gmap string V) (key : string) : bool :=
  bool_decide (is_Some (d !! key)).

End Py.
Import Py.

(** The two error classes of the adapter's contract, and the Python
    exceptions that stand for them. *)
Inductive ErrorClass := InvalidArgument | DependencyMissing.

Definition error_class (t : ExcType) : option ErrorClass :=
  match t with
  | TypeError | ValueError => Some InvalidArgument
  | ImportError | ModuleNotFoundError => Some DependencyMissing
  | _ => None
  end.

(** ** The consumed part of spaCy and of torch *)

Module Spacy.

(** A token of a [Doc]: its text and its character offset. *)
Record Token := mkToken { text : string; idx : nat }.

(** A [Doc] is iterated as its tokens. *)
Abbreviation Doc := (list Token) (only parsing).

(** A loaded language model [nlp]: [nlp(s)], and the generator
    [nlp.pipe(texts, n_threads=n)].  Both run foreign code and may raise. *)
Record Language := mkLanguage {
  call : string -> PyResult Doc;
  pipe : list string -> Z -> Generator Doc
}.

(** The imported package: [spacy.load(name, disable=...)]. *)
Record Package := mkPackage {
  load : PyVal -> list string -> PyResult Language
}.

(** spaCy's contract for [pipe]: the texts are processed as a stream and
    their [Doc]s are yielded in order, each as [nlp] makes it. *)
Definition pipe_streams_call (nlp : Language) : Prop :=
  forall (texts : list string) (n_threads : Z),
    pipe nlp texts n_threads = stream (call nlp) texts.

End Spacy.

Module Torch.

(** A one-dimensional tensor of 64-bit integers. *)
Inductive Tensor := LongTensor (data : list Z).

Definition data (t : Tensor) : list Z := match t with LongTensor d => d end.

Definition in_int64 (z : Z) : bool :=
  bool_decide (- 2 ^ 63 <= z) && bool_decide (z < 2 ^ 63).

Definition overflow : PyExc := mkExc RuntimeError "Overflow when unpacking long".

(** [torch.tensor(vector)] for a list of ints: the tensor of these
    elements, or a [RuntimeError] when one of them does not fit in 64
    bits. *)
Definition tensor (vector : list Z) : PyResult Tensor :=
  if forallb in_int64 vector then Ok (LongTensor vector) else Raise overflow.

Global Instance Tensor_eq_dec : EqDecision Tensor.
Proof. solve_decision. Defined.

End Torch.

(** What the interpreter gives [import spacy]: the package, or the raised
    exception. *)
Record Runtime := mkRuntime { import_spacy : PyResult Spacy.Package }.

(** What a call of the constructor does to the outside, in order: the
    [import spacy] statement, a [print], a call of [spacy.load], the call of
    the base constructor. *)
Inductive Event :=
| Import_spacy
| Print (line : string)
| Load (name : PyVal) (disable : list string)
| Super_init.

(** ** The adapter *)

(** The attributes of a constructed adapter: [spacy] is set by the adapter's
    constructor, the others by the base constructor. *)
Record SpacyEncoder := mkSpacyEncoder {
  spacy : Spacy.Language;
  tokenize : string -> PyResult (list string);
  stoi : gmap string Z;
  unknown_index : Z;
  eos_index : Z;
  append_eos : bool
}.

(** The vocabulary attributes the base constructor builds from the sample. *)
Record Vocabulary := mkVocabulary {
  v_stoi : gmap string Z;
  v_unknown_index : Z;
  v_eos_index : Z;
  v_append_eos : bool
}.

(** Methods run on [self]: they read and may write its attributes, and
    return or raise. *)
Definition M (A : Type) : Type := SpacyEncoder -> PyResult A * SpacyEncoder.

Global Instance M_ret : MRet M := fun _ a self => (Ok a, self).
Global Instance M_bind : MBind M := fun _ _ f m self =>
  match m self with
  | (Ok a, self') => f a self'
  | (Raise e, self') => (Raise e, self')
  end.

(** [self.attr] *)
Definition getattr {A} (attr : SpacyEncoder -> A) : M A := fun self => (Ok (attr self), self).

(** A call that does not go through [self]. *)
Definition lift {A} (r : PyResult A) : M A := fun self => (r, self).

(** [for x in xs: body], the loop's local variables threaded as [acc]. *)
Fixpoint for_in {A S} (xs : list A) (body : S -> A -> M S) (acc : S) : M S :=
  match xs with
  | [] => mret acc
  | x :: xs => acc' ← body acc x; for_in xs body acc'
  end.

(** [for x in g: body] for a generator [g]: the body runs on the items as
    they are yielded, then the exception that ends [g] is raised. *)
Definition for_gen {A S} (g : Generator A) (body : S -> A -> M S) (acc : S) : M S :=
  acc' ← for_in (yields g) body acc;
  match raised g with
  | None => mret acc'
  | Some e => lift (Raise e)
  end.

(** [def _tokenize(s, tokenizer): return [w.text for w in tokenizer(s)]] *)
Definition _tokenize (s : string) (tokenizer : Spacy.Language) : PyResult (list string) :=
  doc ← Spacy.call tokenizer s; mret (map Spacy.text doc).

Definition supported_languages : list PyVal :=
  [PyStr "en"; PyStr "de"; PyStr "es"; PyStr "pt"; PyStr "fr"; PyStr "it"; PyStr "nl"; PyStr "xx"].

(** [disable=['parser', 'tagger', 'ner']] *)
Definition disabled : list string := ["parser"; "tagger"; "ner"]%string.

Definition tokenize_message : string := "Encoder does not take keyword argument tokenize.".

Definition install_message : string := "Please install spaCy: `pip install spacy`".

(** ["Language '{0}' not found. Install using spaCy: `python -m spacy
    download {0}`".format(language)] *)
Definition not_found_message (language : PyVal) : string :=
  "Language '" +:+ str language +:+ "' not found. Install using spaCy: `python -m spacy download "
  +:+ str language +:+ "`".

(** [("No tokenizer available for language '%s'. " + "Currently supported
    are %s") % (language, supported_languages)] *)
Definition unsupported_message (language : PyVal) (supported : list PyVal) : string :=
  "No tokenizer available for language '" +:+ str language +:+ "'. Currently supported are "
  +:+ str (PyList supported).

Section Adapter.

(** [super().__init__] with the positional arguments, [tokenize] and the
    keyword arguments: the base constructor keeps the tokenizing function it is handed and builds
    the vocabulary from the sample with it, or raises. *)
Variable StaticTokenizerEncoder_init :
  list PyVal -> (string -> PyResult (list string)) -> gmap string PyVal -> PyResult Vocabulary.

(** [SpacyEncoder.__init__] on positional arguments [args] and keyword
    arguments [kwargs]: the effects in the order they happen, and the
    constructed adapter or the raised exception. *)
Definition __init__ (rt : Runtime) (args : list PyVal) (kwargs : gmap string PyVal)
  : list Event * PyResult SpacyEncoder :=
  if dict_contains kwargs "tokenize" then
    ([], Raise (mkExc TypeError tokenize_message))
  else
    match import_spacy rt with
    | Raise e =>
        if issubclass (exc_type e) ImportError
        then ([Import_spacy; Print install_message], Raise e)
        else ([Import_spacy], Raise e)
    | Ok spacy_pkg =>
        let language := dict_get kwargs "language" (PyStr "en") in
        if py_in language supported_languages then
          match Spacy.load spacy_pkg language disabled with
          | Raise e =>
              if issubclass (exc_type e) OSError
              then ([Import_spacy; Load language disabled],
                    Raise (mkExc ValueError (not_found_message language)))
              else ([Import_spacy; Load language disabled], Raise e)
          | Ok nlp =>
              let tok := fun s => _tokenize s nlp in
              ([Import_spacy; Load language disabled; Super_init],
               v ← StaticTokenizerEncoder_init args tok kwargs;
               mret {| spacy := nlp; tokenize := tok;
                       stoi := v_stoi v; unknown_index := v_unknown_index v;
                       eos_index := v_eos_index v; append_eos := v_append_eos v |})
          end
        else
          ([Import_spacy],
           Raise (mkExc ValueError (unsupported_message language supported_languages)))
    end.


End Adapter.

(** [vector = [self.stoi.get(token, self.unknown_index) for token in text]] *)
Definition lookup_tokens (text : list string) : M (list Z) :=
  mapM (fun token =>
          stoi_ ← getattr stoi; unknown ← getattr unknown_index;
          mret (dict_get stoi_ token unknown)) text.

(** [if self.append_eos: vector.append(self.eos_index)] *)
Definition maybe_append_eos (vector : list Z) : M (list Z) :=
  flag ← getattr append_eos;
  if (flag : bool) then eos ← getattr eos_index; mret (vector ++ [eos])
  else mret vector.

(** [SpacyEncoder.batch_encode(self, sequences)] *)
Definition batch_encode (sequences : list string) : M (list Torch.Tensor) :=
  nlp ← getattr spacy;
  for_gen (Spacy.pipe nlp sequences (-1)) (fun return_ tokens =>
    let text := map Spacy.text tokens in
    vector ← lookup_tokens text;
    vector ← maybe_append_eos vector;
    tensor ← lift (Torch.tensor vector);
    mret (return_ ++ [tensor])) [].

(** Modelled from the spec: [StaticTokenizerEncoder.encode], the single-item
    path of the base class, which the adapter inherits and which is not
    part of the embedded file.  By the spec the text is split by the
    tokenizing function handed to the base class, and the Encoded Vector
    is the ordered sequence of the token indices, a token absent from the
    vocabulary standing as the unknown index, suffixed with the
    end-of-sequence index when the adapter is configured so; it is returned
    as a tensor, as the docstring of the class shows.  The adapter is only
    read. *)
Definition encode (sequence : string) : M Torch.Tensor := fun self =>
  match tokenize self sequence with
  | Ok text =>
      let indices :=
        (fun token => default (unknown_index self) (stoi self !! token)) <$> text in
      let suffix := if append_eos self then [eos_index self] else [] in
      (Torch.tensor (indices ++ suffix), self)
  | Raise e => (Raise e, self)
  end.

(** Calls of [batch_encode] on one adapter, one after the other, a raised
    exception being caught by the caller: the outcomes, and the adapter
    after the last call. *)
Fixpoint batch_encode_calls (calls : list (list string)) (self : SpacyEncoder)
  : list (PyResult (list Torch.Tensor)) * SpacyEncoder :=
  match calls with
  | [] => ([], self)
  | sequences :: calls =>
      let '(r, self') := batch_encode sequences self in
      let '(rs, self'') := batch_encode_calls calls self' in
      (r :: rs, self'')
  end.

(** ** A small runtime to run the adapter in

    A tokenizer that splits at blanks stands in for a loaded spaCy model,
    installed for ['en'] only; the base constructor numbers the tokens of
    the sample after the five reserved tokens, in order of appearance, and
    takes the unknown index, the end-of-sequence index and the append flag
    from the keyword arguments. *)

Module Demo.

Definition flush (start : nat) (cur : string) : list Spacy.Token :=
  if bool_decide (cur = EmptyString) then [] else [Spacy.mkToken cur start].

Fixpoint split_from (s : string) (pos start : nat) (cur : string) : list Spacy.Token :=
  match s with
  | EmptyString => flush start cur
  | String c s =>
      if bool_decide (c = " "%char)
      then flush start cur ++ split_from s (S pos) (S pos) EmptyString
      else split_from s (S pos) start (cur +:+ String c EmptyString)
  end.

Definition nlp_call (s : string) : PyResult Spacy.Doc := Ok (split_from s 0 0 EmptyString).

Definition nlp : Spacy.Language :=
  {| Spacy.call := nlp_call; Spacy.pipe := fun texts _ => stream nlp_call texts |}.

Definition package : Spacy.Package :=
  {| Spacy.load := fun name _ =>
       if py_eq name (PyStr "en") then Ok nlp
       else Raise (mkExc OSError ("[E050] Can't find model " +:+ repr name)) |}.

Definition with_spacy : Runtime := {| import_spacy := Ok package |}.

Definition without_spacy : Runtime :=
  {| import_spacy := Raise (mkExc ModuleNotFoundError "No module named 'spacy'") |}.

Definition reserved_tokens : list string := ["<pad>"; "<unk>"; "</s>"; "<s>"; "<copy>"]%string.

Definition truthy (x : PyVal) : bool :=
  match x with
  | PyNone => false
  | PyBool b => b
  | PyInt z => negb (bool_decide (z = 0))
  | PyStr s => negb (bool_decide (s = EmptyString))
  | PyList l => negb (bool_decide (l = []))
  | PyFunction _ _ _ => true
  end.

(** An index argument: the int that is given, the default otherwise. *)
Definition index_argument (kwargs : gmap string PyVal) (key : string) (default : Z) : Z :=
  match dict_get kwargs key (PyInt default) with
  | PyInt z => z
  | _ => default
  end.

Definition sample_tokens (tok : string -> PyResult (list string)) (sample : PyVal)
  : PyResult (list string) :=
  match sample with
  | PyList l =>
      @concat string <$> mapM (fun x => match x with
                                | PyStr s => tok s
                                | _ => Raise (mkExc TypeError "expected str")
                                end) l
  | _ => Raise (mkExc TypeError "sample must be a list")
  end.

Definition base_init (args : list PyVal) (tok : string -> PyResult (list string))
    (kwargs : gmap string PyVal) : PyResult Vocabulary :=
  match args with
  | sample :: _ =>
      tokens ← sample_tokens tok sample;
      let itos := reserved_tokens ++ reverse (remove_dups (reverse tokens)) in
      mret {| v_stoi := list_to_map (zip itos (Z.of_nat <$> seq 0 (length itos)));
              v_unknown_index := index_argument kwargs "unknown_index" 1;
              v_eos_index := index_argument kwargs "eos_index" 2;
              v_append_eos := truthy (dict_get kwargs "append_eos" (PyBool false)) |}
  | [] => Raise (mkExc TypeError "__init__() missing 1 required positional argument: 'sample'")
  end.

Definition sample : PyVal := PyList [PyStr "This ai n't funny ."; PyStr "Do n't ?"].

(** The adapters of [SpacyEncoder(sample)] and of [SpacyEncoder(sample,
    append_eos=True)] in this runtime. *)
Definition vocabulary : gmap string Z :=
  list_to_map [("<pad>", 0); ("<unk>", 1); ("</s>", 2); ("<s>", 3); ("<copy>", 4);
               ("This", 5); ("ai", 6); ("n't", 7); ("funny", 8); (".", 9);
               ("Do", 10); ("?", 11)]%string.

Definition encoder : SpacyEncoder :=
  {| spacy := nlp; tokenize := fun s => _tokenize s nlp; stoi := vocabulary;
     unknown_index := 1; eos_index := 2; append_eos := false |}.

Definition encoder_eos : SpacyEncoder :=
  {| spacy := nlp; tokenize := fun s => _tokenize s nlp; stoi := vocabulary;
     unknown_index := 1; eos_index := 2; append_eos := true |}.

(** Keyword arguments of some calls. *)
Definition split_function : PyVal := PyFunction "split" 4096 (fun s => [s]).
Definition with_tokenize : gmap string PyVal := {[ "tokenize" := split_function ]}.
Definition japanese : gmap string PyVal := {[ "language" := PyStr "ja" ]}.
Definition german : gmap string PyVal := {[ "language" := PyStr "de" ]}.
Definition japanese_with_tokenize : gmap string PyVal :=
  {[ "language" := PyStr "ja"; "tokenize" := split_function ]}.
Definition with_eos : gmap string PyVal := {[ "append_eos" := PyBool true ]}.
Definition french_with_tokenize : gmap string PyVal :=
  {[ "language" := PyStr "fr"; "tokenize" := split_function ]}.
Definition none_language : gmap string PyVal := {[ "language" := PyNone ]}.

(** An installation of spaCy whose model files are damaged: [spacy.load]
    raises an error that is no [OSError]. *)
Definition damaged_package : Spacy.Package :=
  {| Spacy.load := fun _ _ => Raise (mkExc RuntimeError "invalid model data") |}.

Definition with_damaged_spacy : Runtime := {| import_spacy := Ok damaged_package |}.

(** The adapters of [SpacyEncoder(sample, append_eos=True,
    eos_index=2**63)] and of [SpacyEncoder(sample, unknown_index=2**63)]:
    an index that does not fit in 64 bits. *)
Definition wide_eos : gmap string PyVal :=
  {[ "append_eos" := PyBool true; "eos_index" := PyInt (2 ^ 63) ]}.

Definition wide_unknown : gmap string PyVal := {[ "unknown_index" := PyInt (2 ^ 63) ]}.

Definition encoder_wide_eos : SpacyEncoder :=
  {| spacy := nlp; tokenize := fun s => _tokenize s nlp; stoi := vocabulary;
     unknown_index := 1; eos_index := 2 ^ 63; append_eos := true |}.

Definition encoder_wide_unknown : SpacyEncoder :=
  {| spacy := nlp; tokenize := fun s => _tokenize s nlp; stoi := vocabulary;
     unknown_index := 2 ^ 63; eos_index := 2; append_eos := false |}.

End Demo.


(** ** What the batch path computes, read off a fixed adapter *)

(** [self.stoi.get(token, self.unknown_index)] *)
Definition index_of (self : SpacyEncoder) (token : string) : Z :=
  dict_get (stoi self) token (unknown_index self).

(** The vector of one token sequence: the indices of its tokens, then the
    end-of-sequence index when [self.append_eos] holds. *)
Definition vector_of (self : SpacyEncoder) (text : list string) : list Z :=
  let vector := map (index_of self) text in
  if append_eos self then vector ++ [eos_index self] else vector.

(** The tensor of one [Doc], or the error of [torch.tensor]. *)
Definition encode_doc (self : SpacyEncoder) (tokens : Spacy.Doc) : PyResult Torch.Tensor :=
  Torch.tensor (vector_of self (map Spacy.text tokens)).

(** The tensors of the [Doc]s that a generator yields, made one by one as
    the loop of [batch_encode] makes them, then the exception that ends the
    generator. *)
Definition encode_docs (self : SpacyEncoder) (g : Generator Spacy.Doc)
  : PyResult (list Torch.Tensor) :=
  vectors ← mapM (encode_doc self) (yields g);
  match raised g with
  | None => Ok vectors
  | Some e => Raise e
  end.

(** Every index that the adapter can write into a vector fits in 64 bits:
    the indices stored in the vocabulary, the unknown index and, when
    [append_eos] holds, the end-of-sequence index. *)
Definition indices_fit (self : SpacyEncoder) : Prop :=
  (forall token z, stoi self !! token = Some z -> - 2 ^ 63 <= z < 2 ^ 63)
  /\ - 2 ^ 63 <= unknown_index self < 2 ^ 63
  /\ (append_eos self = true -> - 2 ^ 63 <= eos_index self < 2 ^ 63).

(** [needle in msg] for two strings. *)
Definition mentions (needle msg : string) : Prop :=
  exists pre suf : string, msg = pre +:+ needle +:+ suf.

(** ** Running the methods *)

(** The equations of [M]. *)
Lemma bind_getattr {A B} (attr : SpacyEncoder -> A) (f : A -> M B) (self : SpacyEncoder) :
  (getattr attr ≫= f) self = f (attr self) self.
Proof. reflexivity. Qed.

Lemma bind_lift {A B} (r : PyResult A) (f : A -> M B) (self : SpacyEncoder) :
  (lift r ≫= f) self
  = match r with Ok a => f a self | Raise e => (Raise e, self) end.
Proof. reflexivity. Qed.

Lemma bind_returns {A B} (m : M A) (f : A -> M B) (self self' : SpacyEncoder) (a : A) :
  m self = (Ok a, self') -> (m ≫= f) self = f a self'.
Proof. intros Hm. unfold mbind, M_bind. by rewrite Hm. Qed.

Lemma bind_raises {A B} (m : M A) (f : A -> M B) (self self' : SpacyEncoder) (e : PyExc) :
  m self = (Raise e, self') -> (m ≫= f) self = (Raise e, self').
Proof. intros Hm. unfold mbind, M_bind. by rewrite Hm. Qed.

Lemma mapM_cons {A B} (f : A -> PyResult B) (x : A) (l : list A) :
  mapM f (x :: l)
  = match f x with
    | Ok y => match mapM f l with Ok k => Ok (y :: k) | Raise e => Raise e end
    | Raise e => Raise e
    end.
Proof. cbn [mapM]. unfold mbind, PyResult_bind. by destruct (f x). Qed.

Section Run.

Context (self : SpacyEncoder).

Lemma lookup_tokens_run (text : list string) :
  lookup_tokens text self = (Ok (map (index_of self) text), self).
Proof.
  unfold lookup_tokens. induction text as [|token text IH]; [done|].
  cbn [mapM].
  rewrite (bind_returns _ _ self self (index_of self token)) by reflexivity.
  by rewrite (bind_returns _ _ _ _ _ IH).
Qed.

Lemma maybe_append_eos_run (vector : list Z) :
  maybe_append_eos vector self
  = (Ok (if append_eos self then vector ++ [eos_index self] else vector), self).
Proof.
  unfold maybe_append_eos. rewrite bind_getattr.
  by destruct (append_eos self).
Qed.

Lemma batch_encode_body_run (return_ : list Torch.Tensor) (tokens : Spacy.Doc) :
  (vector ← lookup_tokens (map Spacy.text tokens);
   vector ← maybe_append_eos vector;
   tensor ← lift (Torch.tensor vector);
   mret (return_ ++ [tensor])) self
  = ((fun tensor => return_ ++ [tensor]) <$> encode_doc self tokens, self).
Proof.
  rewrite (bind_returns _ _ _ _ _ (lookup_tokens_run _)).
  rewrite (bind_returns _ _ _ _ _ (maybe_append_eos_run _)).
  rewrite bind_lift. unfold encode_doc, vector_of.
  by destruct (Torch.tensor _).
Qed.

Lemma batch_encode_loop_run (docs : list Spacy.Doc) (return_ : list Torch.Tensor) :
  for_in docs (fun return_ tokens =>
    let text := map Spacy.text tokens in
    vector ← lookup_tokens text;
    vector ← maybe_append_eos vector;
    tensor ← lift (Torch.tensor vector);
    mret (return_ ++ [tensor])) return_ self
  = ((fun vectors => return_ ++ vectors) <$> mapM (encode_doc self) docs, self).
Proof.
  revert return_. induction docs as [|tokens docs IH]; intros return_.
  - cbn. by rewrite app_nil_r.
  - cbn [for_in]. cbv zeta. cbv zeta in IH. rewrite mapM_cons.
    destruct (encode_doc self tokens) as [tensor|e] eqn:Hdoc.
    + rewrite (bind_returns _ _ self self (return_ ++ [tensor]))
        by (by rewrite batch_encode_body_run, Hdoc).
      rewrite IH. destruct (mapM (encode_doc self) docs) as [vectors|e]; [|done].
      cbn. by rewrite <- app_assoc.
    + by rewrite (bind_raises _ _ self self e)
        by (by rewrite batch_encode_body_run, Hdoc).
Qed.

(** The batch path on [self]: the tensors of the [Doc]s that [pipe] yields,
    or the first exception met, of [torch.tensor] on a [Doc] or of [pipe]
    at its end; [self] is handed back as it was. *)
Lemma batch_encode_run (sequences : list string) :
  batch_encode sequences self
  = (encode_docs self (Spacy.pipe (spacy self) sequences (-1)), self).
Proof.
  unfold batch_encode. rewrite bind_getattr. unfold for_gen, encode_docs.
  set (g := Spacy.pipe (spacy self) sequences (-1)).
  pose proof (batch_encode_loop_run (yields g) []) as Hloop. cbv zeta in Hloop.
  destruct (mapM (encode_doc self) (yields g)) as [vectors|e].
  - rewrite (bind_returns _ _ _ _ _ Hloop). cbn. by destruct (raised g).
  - by rewrite (bind_raises _ _ _ _ _ Hloop).
Qed.



End Run.

(** ** Strings and the supported languages *)

Lemma append_assoc (a b c : string) : (a +:+ b) +:+ c = a +:+ b +:+ c.
Proof. induction a as [|x a IH]; [done|]. exact (f_equal (String x) IH). Qed.

Lemma mem_char_app (c : ascii) (a b : string) :
  mem_char c (a +:+ b) = mem_char c a || mem_char c b.
Proof.
  induction a as [|x a IH]; [done|].
  change (bool_decide (c = x) || mem_char c (a +:+ b)
          = bool_decide (c = x) || mem_char c a || mem_char c b).
  rewrite IH. by destruct (bool_decide (c = x)).
Qed.

Lemma mentions_mem_char (c : ascii) (needle msg : string) :
  mentions needle msg -> mem_char c needle = true -> mem_char c msg = true.
Proof.
  intros (pre & suf & ->) Hc. rewrite !mem_char_app, Hc.
  by destruct (mem_char c pre).
Qed.

Lemma py_eq_str (x : PyVal) (code : string) :
  py_eq x (PyStr code) = true <-> x = PyStr code.
Proof.
  split.
  - destruct x; cbn; try done. intros H. by apply bool_decide_eq_true in H as ->.
  - intros ->. cbn. by apply bool_decide_eq_true.
Qed.

(** [language in supported_languages] holds for the eight codes as strings
    and for nothing else. *)
Lemma py_in_supported (x : PyVal) :
  py_in x supported_languages = true
  <-> exists code, x = PyStr code
      /\ code ∈ ["en"; "de"; "es"; "pt"; "fr"; "it"; "nl"; "xx"]%string.
Proof.
  unfold py_in, supported_languages. rewrite existsb_exists. split.
  - intros (y & Hin & Heq). cbn in Hin.
    repeat (destruct Hin as [<-|Hin];
            [apply py_eq_str in Heq; eexists; split; [exact Heq|set_solver]|]).
    destruct Hin.
  - intros (code & -> & Hin). exists (PyStr code). split.
    + apply list_elem_of_In.
      change (PyStr code ∈ PyStr <$> ["en"; "de"; "es"; "pt"; "fr"; "it"; "nl"; "xx"]%string).
      by apply list_elem_of_fmap_2.
    + by apply py_eq_str.
Qed.

Lemma py_in_unsupported (code : string) :
  code ∉ ["en"; "de"; "es"; "pt"; "fr"; "it"; "nl"; "xx"]%string ->
  py_in (PyStr code) supported_languages = false.
Proof.
  intros Hnot. apply not_true_is_false. intros Hin.
  apply py_in_supported in Hin as (code' & [= <-] & Hin). done.
Qed.

Lemma dict_contains_true {V} (d : gmap string V) (key : string) :
  dict_contains d key = true <-> is_Some (d !! key).
Proof. unfold dict_contains. by rewrite bool_decide_eq_true. Qed.

Lemma dict_contains_false {V} (d : gmap string V) (key : string) :
  dict_contains d key = false <-> d !! key = None.
Proof.
  unfold dict_contains. rewrite bool_decide_eq_false.
  by rewrite eq_None_not_Some.
Qed.

Lemma dict_get_Some {V} (d : gmap string V) (key : string) (default v : V) :
  d !! key = Some v -> dict_get d key default = v.
Proof. unfold dict_get. by intros ->. Qed.

Lemma dict_get_None {V} (d : gmap string V) (key : string) (default : V) :
  d !! key = None -> dict_get d key default = default.
Proof. unfold dict_get. by intros ->. Qed.

(** ** The constructor *)

Section Constructor.

Variable base_init :
  list PyVal -> (string -> PyResult (list string)) -> gmap string PyVal -> PyResult Vocabulary.

Implicit Types (rt : Runtime) (args : list PyVal) (kwargs : gmap string PyVal).

Lemma init_tokenize_given rt args kwargs :
  is_Some (kwargs !! "tokenize") ->
  __init__ base_init rt args kwargs = ([], Raise (mkExc TypeError tokenize_message)).
Proof.
  intros Htok. unfold __init__. by rewrite (proj2 (dict_contains_true _ _) Htok).
Qed.

Lemma init_import_fails rt args kwargs (e : PyExc) :
  kwargs !! "tokenize" = None ->
  import_spacy rt = Raise e ->
  issubclass (exc_type e) ImportError = true ->
  __init__ base_init rt args kwargs = ([Import_spacy; Print install_message], Raise e).
Proof.
  intros Htok Himp Hsub. unfold __init__.
  by rewrite (proj2 (dict_contains_false _ _) Htok), Himp, Hsub.
Qed.

Lemma import_error_class (e : PyExc) :
  issubclass (exc_type e) ImportError = true ->
  error_class (exc_type e) = Some DependencyMissing.
Proof. by destruct e as [[] msg]. Qed.

(** C2.  Whatever the other arguments and the runtime are, a call of the
    constructor whose keyword arguments hold [tokenize] raises the
    [TypeError] (an [InvalidArgument] error) of the first check, and nothing
    after that check happens: no import, no print, no model load, no call
    of the base constructor. *)
Theorem tokenize_keyword_rejected rt args kwargs :
  is_Some (kwargs !! "tokenize") ->
  __init__ base_init rt args kwargs = ([], Raise (mkExc TypeError tokenize_message))
  /\ error_class TypeError = Some InvalidArgument.
Proof.
  intros Htok. split; [|done]. by apply init_tokenize_given.
Qed.

(** C3, as amended.  The supported languages are the eight codes ['en'],
    ['de'], ['es'], ['pt'], ['fr'], ['it'], ['nl'], ['xx'].  For a language
    code outside them, with spaCy importable and no [tokenize] keyword
    argument, the constructor raises a [ValueError] (an [InvalidArgument]
    error) whose message holds the offending code and the list of the
    supported codes; no model load is attempted. *)
Theorem unsupported_language_rejected rt args kwargs (pkg : Spacy.Package) (code : string) :
  kwargs !! "tokenize" = None ->
  import_spacy rt = Ok pkg ->
  kwargs !! "language" = Some (PyStr code) ->
  code ∉ ["en"; "de"; "es"; "pt"; "fr"; "it"; "nl"; "xx"]%string ->
  supported_languages = PyStr <$> ["en"; "de"; "es"; "pt"; "fr"; "it"; "nl"; "xx"]%string
  /\ length supported_languages = 8%nat
  /\ exists msg,
      __init__ base_init rt args kwargs = ([Import_spacy], Raise (mkExc ValueError msg))
      /\ error_class ValueError = Some InvalidArgument
      /\ msg = "No tokenizer available for language '" +:+ code
               +:+ "'. Currently supported are ['en', 'de', 'es', 'pt', 'fr', 'it', 'nl', 'xx']"
      /\ mentions code msg
      /\ mentions "['en', 'de', 'es', 'pt', 'fr', 'it', 'nl', 'xx']" msg.
Proof.
  intros Htok Himp Hlang Hcode. split; [done|]. split; [done|].
  eexists. split; [|split; [done|split; [reflexivity|split]]].
  - unfold __init__.
    rewrite (proj2 (dict_contains_false _ _) Htok), Himp.
    rewrite (dict_get_Some _ _ _ _ Hlang), (py_in_unsupported _ Hcode).
    reflexivity.
  - by exists "No tokenizer available for language '",
      "'. Currently supported are ['en', 'de', 'es', 'pt', 'fr', 'it', 'nl', 'xx']".
  - exists ("No tokenizer available for language '" +:+ code
            +:+ "'. Currently supported are "), EmptyString.
    by rewrite !append_assoc.
Qed.

(** C4, as amended.  When [import spacy] raises an [ImportError] (spaCy is
    not installed) and no [tokenize] keyword argument is given, the
    constructor prints the installation guidance and then re-raises that
    same error, a [DependencyMissing] error. *)
Theorem missing_library_reported rt args kwargs (e : PyExc) :
  kwargs !! "tokenize" = None ->
  import_spacy rt = Raise e ->
  issubclass (exc_type e) ImportError = true ->
  __init__ base_init rt args kwargs = ([Import_spacy; Print install_message], Raise e)
  /\ install_message = "Please install spaCy: `pip install spacy`"
  /\ error_class (exc_type e) = Some DependencyMissing.
Proof.
  intros Htok Himp Hsub. split; [|split; [done|]].
  - by apply init_import_fails.
  - by apply import_error_class.
Qed.

(** C5, as amended.  With no [tokenize] keyword, spaCy imported and the
    language among the supported ones, when [spacy.load] raises an [OSError]
    for the language (its model is not installed), the constructor raises a
    [ValueError] (an [InvalidArgument] error) whose message names the
    language and gives the command [python -m spacy download] for it; the
    base constructor is not called. *)
Theorem missing_model_reported rt args kwargs (pkg : Spacy.Package) (e : PyExc) :
  let language := dict_get kwargs "language" (PyStr "en") in
  kwargs !! "tokenize" = None ->
  import_spacy rt = Ok pkg ->
  py_in language supported_languages = true ->
  Spacy.load pkg language disabled = Raise e ->
  issubclass (exc_type e) OSError = true ->
  exists code msg,
    language = PyStr code
    /\ __init__ base_init rt args kwargs
       = ([Import_spacy; Load language disabled], Raise (mkExc ValueError msg))
    /\ error_class ValueError = Some InvalidArgument
    /\ msg = "Language '" +:+ code
             +:+ "' not found. Install using spaCy: `python -m spacy download " +:+ code +:+ "`"
    /\ mentions code msg
    /\ mentions ("python -m spacy download " +:+ code) msg.
Proof.
  intros language Hno Himp Hin Hraise Hsub.
  destruct (proj1 (py_in_supported _) Hin) as (code & Hcode & _).
  exists code. eexists. split; [exact Hcode|].
  split; [|split; [done|split; [reflexivity|split]]].
  - unfold __init__. fold language.
    rewrite (proj2 (dict_contains_false _ _) Hno), Himp, Hin, Hraise, Hsub.
    unfold not_found_message. by rewrite Hcode.
  - by exists "Language '",
      ("' not found. Install using spaCy: `python -m spacy download " +:+ code +:+ "`").
  - exists ("Language '" +:+ code +:+ "' not found. Install using spaCy: `"), "`".
    by rewrite !append_assoc.
Qed.

(** C10.  The constructor checks in a fixed order: the [tokenize] keyword,
    then the import of spaCy, then the language code, then the model load.
    So (1) a [tokenize] keyword raises the [TypeError] in every runtime,
    also when spaCy is absent, before anything is imported; (2) past the
    first check, a failing import re-raises its error before the language
    is looked at, so an unsupported language with spaCy absent gives the
    import's [DependencyMissing] error and not the unsupported-language
    error; (3) with spaCy imported, an unsupported language is rejected
    without a model load; (4) a supported language reaches the model load,
    after the import. *)
Theorem validation_order rt args kwargs :
  let language := dict_get kwargs "language" (PyStr "en") in
  (is_Some (kwargs !! "tokenize") ->
     __init__ base_init rt args kwargs = ([], Raise (mkExc TypeError tokenize_message))
     /\ error_class TypeError = Some InvalidArgument)
  /\ (kwargs !! "tokenize" = None ->
      forall e, import_spacy rt = Raise e -> issubclass (exc_type e) ImportError = true ->
        __init__ base_init rt args kwargs = ([Import_spacy; Print install_message], Raise e)
        /\ error_class (exc_type e) = Some DependencyMissing
        /\ e <> mkExc ValueError (unsupported_message language supported_languages))
  /\ (kwargs !! "tokenize" = None ->
      forall pkg, import_spacy rt = Ok pkg ->
        py_in language supported_languages = false ->
        __init__ base_init rt args kwargs
        = ([Import_spacy],
           Raise (mkExc ValueError (unsupported_message language supported_languages))))
  /\ (kwargs !! "tokenize" = None ->
      forall pkg, import_spacy rt = Ok pkg ->
        py_in language supported_languages = true ->
        exists rest r,
          __init__ base_init rt args kwargs
          = (Import_spacy :: Load language disabled :: rest, r)).
Proof.
  intros language. split; [|split; [|split]].
  - intros Htok. split; [|done]. by apply init_tokenize_given.
  - intros Htok e Himp Hsub. split; [|split].
    + by apply init_import_fails.
    + by apply import_error_class.
    + intros ->. done.
  - intros Htok pkg Himp Hin. unfold __init__. fold language.
    by rewrite (proj2 (dict_contains_false _ _) Htok), Himp, Hin.
  - intros Htok pkg Himp Hin. unfold __init__. fold language.
    rewrite (proj2 (dict_contains_false _ _) Htok), Himp, Hin.
    destruct (Spacy.load pkg language disabled) as [nlp|e]; [by eexists _, _|].
    destruct (issubclass (exc_type e) OSError); by eexists _, _.
Qed.

End Constructor.

(** ** The constructor in the small runtime *)

Lemma ja_unsupported : "ja" ∉ ["en"; "de"; "es"; "pt"; "fr"; "it"; "nl"; "xx"]%string.
Proof.
  intros H. repeat (apply elem_of_cons in H as [H|H]; [discriminate H|]).
  by apply elem_of_nil in H.
Defined.

Lemma tokenize_keyword_rejected_witness :
  is_Some (Demo.with_tokenize !! "tokenize")
  /\ __init__ Demo.base_init Demo.with_spacy [Demo.sample] Demo.with_tokenize
      = ([], Raise (mkExc TypeError "Encoder does not take keyword argument tokenize."))
  /\ error_class TypeError = Some InvalidArgument.
Proof.
  assert (is_Some (Demo.with_tokenize !! "tokenize")) as Htok
    by (eexists; vm_compute; reflexivity).
  split; [exact Htok|].
  exact (tokenize_keyword_rejected Demo.base_init Demo.with_spacy [Demo.sample] _ Htok).
Defined.

Lemma unsupported_language_rejected_witness :
  exists msg,
    __init__ Demo.base_init Demo.with_spacy [Demo.sample] Demo.japanese
    = ([Import_spacy], Raise (mkExc ValueError msg))
    /\ msg = "No tokenizer available for language 'ja'. Currently supported are ['en', 'de', 'es', 'pt', 'fr', 'it', 'nl', 'xx']".
Proof.
  assert (Demo.japanese !! "tokenize" = None) as Htok by (vm_compute; reflexivity).
  assert (Demo.japanese !! "language" = Some (PyStr "ja")) as Hlang
    by (vm_compute; reflexivity).
  destruct (unsupported_language_rejected Demo.base_init Demo.with_spacy [Demo.sample]
              Demo.japanese Demo.package "ja" Htok eq_refl Hlang ja_unsupported)
    as (_ & _ & msg & Hrun & _ & Hmsg & _).
  exists msg. split; [exact Hrun|exact Hmsg].
Defined.

(** C3 as stated fails: with spaCy available and the unsupported code
    ['ja'], a call that also passes [tokenize] stops at the first check; the
    message of its error neither holds the code nor lists the supported
    ones. *)
Lemma unsupported_language_with_tokenize_keyword :
  import_spacy Demo.with_spacy = Ok Demo.package
  /\ Demo.japanese_with_tokenize !! "language" = Some (PyStr "ja")
  /\ ("ja" ∉ ["en"; "de"; "es"; "pt"; "fr"; "it"; "nl"; "xx"]%string)
  /\ __init__ Demo.base_init Demo.with_spacy [Demo.sample] Demo.japanese_with_tokenize
     = ([], Raise (mkExc TypeError "Encoder does not take keyword argument tokenize."))
  /\ ~ mentions "ja" "Encoder does not take keyword argument tokenize."
  /\ ~ mentions "['en', 'de', 'es', 'pt', 'fr', 'it', 'nl', 'xx']"
         "Encoder does not take keyword argument tokenize.".
Proof.
  split; [reflexivity|]. split; [by vm_compute|].
  split; [exact ja_unsupported|]. split; [by vm_compute|]. split.
  - intros H. by pose proof (mentions_mem_char "j" _ _ H eq_refl).
  - intros H. by pose proof (mentions_mem_char "[" _ _ H eq_refl).
Qed.

Lemma missing_library_reported_witness :
  __init__ Demo.base_init Demo.without_spacy [Demo.sample] ∅
  = ([Import_spacy; Print "Please install spaCy: `pip install spacy`"],
     Raise (mkExc ModuleNotFoundError "No module named 'spacy'"))
  /\ error_class ModuleNotFoundError = Some DependencyMissing.
Proof.
  assert ((∅ : gmap string PyVal) !! "tokenize" = None) as Htok
    by (vm_compute; reflexivity).
  destruct (missing_library_reported Demo.base_init Demo.without_spacy [Demo.sample] ∅
              (mkExc ModuleNotFoundError "No module named 'spacy'") Htok eq_refl eq_refl)
    as (Hrun & _ & Hclass).
  split; [exact Hrun|exact Hclass].
Defined.

(** C4 as stated fails: with spaCy absent, a call that passes [tokenize]
    raises the [TypeError] of the first check, which is no
    [DependencyMissing] error, and prints nothing. *)
Lemma missing_library_with_tokenize_keyword :
  import_spacy Demo.without_spacy
  = Raise (mkExc ModuleNotFoundError "No module named 'spacy'")
  /\ __init__ Demo.base_init Demo.without_spacy [Demo.sample] Demo.with_tokenize
     = ([], Raise (mkExc TypeError "Encoder does not take keyword argument tokenize."))
  /\ error_class TypeError <> Some DependencyMissing.
Proof. split; [reflexivity|]. split; [by vm_compute|done]. Qed.

Lemma missing_model_reported_witness :
  exists code msg,
    dict_get Demo.german "language" (PyStr "en") = PyStr code
    /\ __init__ Demo.base_init Demo.with_spacy [Demo.sample] Demo.german
       = ([Import_spacy; Load (dict_get Demo.german "language" (PyStr "en")) disabled],
          Raise (mkExc ValueError msg))
    /\ msg = "Language '" +:+ code
             +:+ "' not found. Install using spaCy: `python -m spacy download " +:+ code +:+ "`".
Proof.
  assert (Demo.german !! "tokenize" = None) as Hno by (vm_compute; reflexivity).
  assert (py_in (dict_get Demo.german "language" (PyStr "en")) supported_languages = true)
    as Hin by (vm_compute; reflexivity).
  assert (Spacy.load Demo.package (dict_get Demo.german "language" (PyStr "en")) disabled
          = Raise (mkExc OSError "[E050] Can't find model 'de'"))
    as Hload by (vm_compute; reflexivity).
  destruct (missing_model_reported Demo.base_init Demo.with_spacy [Demo.sample]
              Demo.german Demo.package _ Hno eq_refl Hin Hload eq_refl)
    as (code & msg & Hcode & Hrun & _ & Hmsg & _).
  exists code, msg. split; [exact Hcode|]. split; [exact Hrun|exact Hmsg].
Defined.

(** C5 as stated fails: with spaCy available and the supported language
    ['fr'], whose model is not installed, a call that also passes [tokenize]
    stops at the first check; the message of its error neither names the
    language nor gives the download command. *)
Lemma missing_model_with_tokenize_keyword :
  import_spacy Demo.with_spacy = Ok Demo.package
  /\ Demo.french_with_tokenize !! "language" = Some (PyStr "fr")
  /\ py_in (PyStr "fr") supported_languages = true
  /\ Spacy.load Demo.package (PyStr "fr") disabled
     = Raise (mkExc OSError "[E050] Can't find model 'fr'")
  /\ __init__ Demo.base_init Demo.with_spacy [Demo.sample] Demo.french_with_tokenize
     = ([], Raise (mkExc TypeError "Encoder does not take keyword argument tokenize."))
  /\ ~ mentions "fr" "Encoder does not take keyword argument tokenize."
  /\ ~ mentions "python -m spacy download fr"
         "Encoder does not take keyword argument tokenize.".
Proof.
  split; [reflexivity|]. split; [by vm_compute|]. split; [by vm_compute|].
  split; [by vm_compute|]. split; [by vm_compute|]. split.
  - intros H. by pose proof (mentions_mem_char "f" _ _ H eq_refl).
  - intros H. by pose proof (mentions_mem_char "p" _ _ H eq_refl).
Qed.

Lemma validation_order_witness :
  __init__ Demo.base_init Demo.without_spacy [Demo.sample] Demo.with_tokenize
  = ([], Raise (mkExc TypeError tokenize_message))
  /\ __init__ Demo.base_init Demo.without_spacy [Demo.sample] Demo.japanese
     = ([Import_spacy; Print install_message],
        Raise (mkExc ModuleNotFoundError "No module named 'spacy'"))
  /\ __init__ Demo.base_init Demo.with_spacy [Demo.sample] Demo.japanese
     = ([Import_spacy],
        Raise (mkExc ValueError
                 (unsupported_message (dict_get Demo.japanese "language" (PyStr "en"))
                    supported_languages))).
Proof.
  assert (is_Some (Demo.with_tokenize !! "tokenize")) as Htok
    by (eexists; vm_compute; reflexivity).
  assert (Demo.japanese !! "tokenize" = None) as Hno by (vm_compute; reflexivity).
  assert (py_in (dict_get Demo.japanese "language" (PyStr "en")) supported_languages = false)
    as Hout by (vm_compute; reflexivity).
  split; [|split].
  - exact (proj1 (proj1 (validation_order Demo.base_init Demo.without_spacy [Demo.sample]
                           Demo.with_tokenize) Htok)).
  - exact (proj1 (proj1 (proj2 (validation_order Demo.base_init Demo.without_spacy
                                  [Demo.sample] Demo.japanese)) Hno _ eq_refl eq_refl)).
  - exact (proj1 (proj2 (proj2 (validation_order Demo.base_init Demo.with_spacy
                                  [Demo.sample] Demo.japanese))) Hno _ eq_refl Hout).
Defined.

Example construct_encoder :
  __init__ Demo.base_init Demo.with_spacy [Demo.sample] ∅
  = ([Import_spacy; Load (PyStr "en") disabled; Super_init], Ok Demo.encoder).
Proof. vm_compute. reflexivity. Qed.

Example construct_encoder_eos :
  __init__ Demo.base_init Demo.with_spacy [Demo.sample] Demo.with_eos
  = ([Import_spacy; Load (PyStr "en") disabled; Super_init], Ok Demo.encoder_eos).
Proof. vm_compute. reflexivity. Qed.

Example batch_encode_docstring :
  fst (batch_encode ["This ai n't funny ."; "Do it ."; EmptyString] Demo.encoder)
  = Ok [Torch.LongTensor [5; 6; 7; 8; 9]; Torch.LongTensor [10; 1; 9];
        Torch.LongTensor []].
Proof. vm_compute. reflexivity. Qed.

(** ** Loops over results *)

Section MapM.

Context {A B : Type} (f : A -> PyResult B).

Lemma mapM_Ok (l : list A) (k : list B) :
  mapM f l = Ok k <-> Forall2 (fun x y => f x = Ok y) l k.
Proof.
  revert k. induction l as [|x l IH]; intros k.
  - split; [intros [= <-]; constructor|by inversion 1].
  - rewrite mapM_cons. split.
    + destruct (f x) as [y|e] eqn:Hx; [|done].
      destruct (mapM f l) as [k'|e] eqn:Hl; [|done].
      intros [= <-]. constructor; [done|]. by apply IH.
    + inversion 1 as [|? y ? k' Hx Hl]; subst.
      rewrite Hx. apply IH in Hl. by rewrite Hl.
Qed.


Lemma mapM_Raise (l : list A) (e : PyExc) :
  mapM f l = Raise e -> exists x, x ∈ l /\ f x = Raise e.
Proof.
  induction l as [|x l IH]; [done|]. rewrite mapM_cons.
  destruct (f x) as [y|e'] eqn:Hx.
  - destruct (mapM f l) as [k|e'] eqn:Hl; [done|]. intros [= ->].
    destruct IH as (x' & Hin & Hx'); [done|]. exists x'. split; [by right|done].
  - intros [= ->]. exists x. split; [by left|done].
Qed.

End MapM.

Lemma mapM_ext_result {A B} (f g : A -> PyResult B) (l : list A) :
  (forall x, f x = g x) -> mapM f l = mapM g l.
Proof.
  intros Hfg. induction l as [|x l IH]; [done|].
  by rewrite !mapM_cons, Hfg, IH.
Qed.

Lemma mapM_app_result {A B} (f : A -> PyResult B) (l k : list A) :
  mapM f (l ++ k) = (a ← mapM f l; b ← mapM f k; mret (a ++ b)).
Proof.
  induction l as [|x l IH].
  - cbn [app mapM]. unfold mbind, PyResult_bind, mret, PyResult_ret.
    by destruct (mapM f k).
  - change ((x :: l) ++ k) with (x :: (l ++ k)). rewrite !mapM_cons, IH.
    unfold mbind, PyResult_bind, mret, PyResult_ret.
    destruct (f x) as [y|e]; [|done]. destruct (mapM f l) as [a|e]; [|done].
    by destruct (mapM f k).
Qed.

(** Consuming a stream item by item is the loop over the inputs. *)
Lemma mapM_stream {A B C} (f : A -> PyResult B) (h : B -> PyResult C) (l : list A) :
  (k ← mapM h (yields (stream f l));
   match raised (stream f l) with None => Ok k | Some e => Raise e end)
  = mapM (fun x => y ← f x; h y) l.
Proof.
  induction l as [|x l IH]; [done|].
  rewrite (mapM_cons (fun x => y ← f x; h y)). cbn [stream].
  destruct (f x) as [y|e]; [|done]. cbn [yields raised].
  rewrite mapM_cons. rewrite <- IH. unfold mbind, PyResult_bind.
  destruct (h y) as [z|e]; [|done].
  destruct (mapM h (yields (stream f l))) as [k|e]; [|done].
  by destruct (raised (stream f l)).
Qed.

(** ** torch.tensor on the vectors of an adapter *)

Lemma tensor_Ok (vector : list Z) (t : Torch.Tensor) :
  Torch.tensor vector = Ok t -> t = Torch.LongTensor vector.
Proof. unfold Torch.tensor. destruct (forallb _ vector); by intros [=]. Qed.

Lemma tensor_Raise (vector : list Z) (e : PyExc) :
  Torch.tensor vector = Raise e ->
  e = Torch.overflow /\ exists z, z ∈ vector /\ ~ (- 2 ^ 63 <= z < 2 ^ 63).
Proof.
  unfold Torch.tensor. destruct (forallb _ vector) eqn:Hall; [done|].
  intros [= <-]. split; [done|].
  induction vector as [|z vector IH]; [done|]. cbn [forallb] in Hall.
  destruct (Torch.in_int64 z) eqn:Hz.
  - destruct IH as (z' & Hin & Hz'); [done|]. exists z'. split; [by right|done].
  - exists z. split; [by left|]. intros [Hlo Hhi].
    unfold Torch.in_int64 in Hz.
    by rewrite (bool_decide_eq_true_2 _ Hlo), (bool_decide_eq_true_2 _ Hhi) in Hz.
Qed.

Lemma tensor_fits (vector : list Z) :
  (forall z, z ∈ vector -> - 2 ^ 63 <= z < 2 ^ 63) ->
  Torch.tensor vector = Ok (Torch.LongTensor vector).
Proof.
  intros Hfit. unfold Torch.tensor.
  assert (forallb Torch.in_int64 vector = true) as ->; [|done].
  apply forallb_forall. intros z Hz. apply list_elem_of_In, Hfit in Hz as [Hlo Hhi].
  unfold Torch.in_int64. apply andb_true_intro. split; by apply bool_decide_eq_true.
Qed.

Lemma vector_of_elem (self : SpacyEncoder) (text : list string) (z : Z) :
  z ∈ vector_of self text ->
  (exists token, stoi self !! token = Some z)
  \/ z = unknown_index self
  \/ (append_eos self = true /\ z = eos_index self).
Proof.
  unfold vector_of. intros Hz.
  assert (forall text, z ∈ map (index_of self) text ->
            (exists token, stoi self !! token = Some z) \/ z = unknown_index self) as Hmap.
  { intros text' Hin. change (z ∈ index_of self <$> text') in Hin.
    apply list_elem_of_fmap in Hin as (token & -> & _).
    unfold index_of, dict_get. destruct (stoi self !! token) as [y|] eqn:Hy.
    - left. by exists token.
    - by right. }
  destruct (append_eos self).
  - apply elem_of_app in Hz as [Hz|Hz].
    + destruct (Hmap _ Hz) as [H|H]; [by left|right; by left].
    + apply list_elem_of_singleton in Hz. right. by right.
  - destruct (Hmap _ Hz) as [H|H]; [by left|right; by left].
Qed.

Lemma encode_doc_fits (self : SpacyEncoder) (tokens : list Spacy.Token) :
  indices_fit self ->
  encode_doc self tokens = Ok (Torch.LongTensor (vector_of self (map Spacy.text tokens))).
Proof.
  intros (Hstoi & Hunknown & Heos). apply tensor_fits. intros z Hz.
  apply vector_of_elem in Hz as [[token Hz]|[->|[Hflag ->]]];
    [by eapply Hstoi|done|by apply Heos].
Qed.

Lemma encode_doc_Ok (self : SpacyEncoder) (tokens : list Spacy.Token) (t : Torch.Tensor) :
  encode_doc self tokens = Ok t ->
  t = Torch.LongTensor (vector_of self (map Spacy.text tokens)).
Proof. apply tensor_Ok. Qed.

Lemma encode_doc_Raise (self : SpacyEncoder) (tokens : list Spacy.Token) (e : PyExc) :
  encode_doc self tokens = Raise e -> e = Torch.overflow /\ ~ indices_fit self.
Proof.
  intros Hraise. split; [by apply tensor_Raise in Hraise as [-> _]|].
  intros Hfit. by rewrite (encode_doc_fits _ _ Hfit) in Hraise.
Qed.

(** The outcomes of the batch path, from its run. *)
Lemma encode_docs_Ok (self : SpacyEncoder) (g : Generator (list Spacy.Token))
    (vectors : list Torch.Tensor) :
  encode_docs self g = Ok vectors
  <-> raised g = None
      /\ Forall2 (fun tokens t => encode_doc self tokens = Ok t) (yields g) vectors.
Proof.
  unfold encode_docs, mbind, PyResult_bind. rewrite <- mapM_Ok.
  destruct (mapM (encode_doc self) (yields g)) as [k|e]; destruct (raised g);
    split; (intros [= ->] || intros [[=] [=]]); subst; done.
Qed.

Lemma encode_docs_fits (self : SpacyEncoder) (g : Generator (list Spacy.Token)) :
  raised g = None -> indices_fit self ->
  encode_docs self g
  = Ok (map (fun tokens => Torch.LongTensor (vector_of self (map Spacy.text tokens)))
          (yields g)).
Proof.
  intros Hend Hfit. apply encode_docs_Ok. split; [done|].
  induction (yields g) as [|tokens docs IH]; constructor; [|done].
  by apply encode_doc_fits.
Qed.

Lemma encode_docs_Raise (self : SpacyEncoder) (g : Generator (list Spacy.Token))
    (e : PyExc) :
  encode_docs self g = Raise e ->
  raised g = Some e \/ (e = Torch.overflow /\ ~ indices_fit self).
Proof.
  unfold encode_docs, mbind, PyResult_bind.
  destruct (mapM (encode_doc self) (yields g)) as [k|e'] eqn:Hk.
  - destruct (raised g); intros [= ->]. by left.
  - intros [= ->]. right. apply mapM_Raise in Hk as (tokens & _ & Hraise).
    by eapply encode_doc_Raise.
Qed.

(** ** The two paths on a constructed adapter *)




(** The batch path under spaCy's contract for [pipe]. *)
Lemma batch_encode_streams (self : SpacyEncoder) (sequences : list string) :
  Spacy.pipe_streams_call (spacy self) ->
  batch_encode sequences self
  = (mapM (fun s => tokens ← Spacy.call (spacy self) s; encode_doc self tokens)
       sequences, self).
Proof.
  intros Hpipe. rewrite batch_encode_run, Hpipe. unfold encode_docs.
  by rewrite mapM_stream.
Qed.

(** ** The batch path *)



Lemma index_of_absent (self : SpacyEncoder) (token : string) :
  stoi self !! token = None -> index_of self token = unknown_index self.
Proof. intros Habsent. unfold index_of. by apply dict_get_None. Qed.

Lemma vector_of_lookup (self : SpacyEncoder) (text : list string) (j : nat) (token : string) :
  text !! j = Some token -> vector_of self text !! j = Some (index_of self token).
Proof.
  intros Hj. unfold vector_of.
  assert (map (index_of self) text !! j = Some (index_of self token)) as Hmap.
  { change (map (index_of self) text) with (index_of self <$> text).
    by rewrite list_lookup_fmap, Hj. }
  destruct (append_eos self); [|done].
  by apply lookup_app_l_Some.
Qed.

(** The vector of a [Doc] among the tensors that the batch path returned. *)
Lemma returned_vector (self : SpacyEncoder) (sequences : list string)
    (vectors : list Torch.Tensor) (i : nat) (tokens : list Spacy.Token) :
  fst (batch_encode sequences self) = Ok vectors ->
  yields (Spacy.pipe (spacy self) sequences (-1)) !! i = Some tokens ->
  vectors !! i = Some (Torch.LongTensor (vector_of self (map Spacy.text tokens))).
Proof.
  rewrite batch_encode_run. cbn [fst]. intros [_ Hall]%encode_docs_Ok Hi.
  destruct (Forall2_lookup_l _ _ _ _ _ Hall Hi) as (vector & Hvec & Hdoc).
  by rewrite Hvec, (encode_doc_Ok _ _ _ Hdoc).
Qed.

Lemma batch_encode_returns (self : SpacyEncoder) (sequences : list string) :
  raised (Spacy.pipe (spacy self) sequences (-1)) = None ->
  indices_fit self ->
  exists vectors, batch_encode sequences self = (Ok vectors, self).
Proof.
  intros Hend Hfit. eexists. by rewrite batch_encode_run, (encode_docs_fits _ _ Hend Hfit).
Qed.

(** C7, as amended.  The vocabulary lookup of the batch path is total: on every token
    sequence it returns, with one index per token, and the index of a token
    absent from the vocabulary is the unknown index.  So in what
    [batch_encode] returns, the vector of each [Doc] holds the unknown index
    at the place of each absent token, and [batch_encode] returns whenever
    the tokenizer ends without an exception and the indices of the adapter
    fit in 64 bits.  An exception out of [batch_encode] is the tokenizer's
    or the overflow error of [torch.tensor] on an index that does not fit;
    the lookup raises none. *)
Theorem absent_tokens_get_unknown_index (self : SpacyEncoder) (sequences : list string) :
  let g := Spacy.pipe (spacy self) sequences (-1) in
  (forall text : list string,
     exists vector, lookup_tokens text self = (Ok vector, self)
       /\ length vector = length text
       /\ forall (j : nat) (token : string), text !! j = Some token ->
            stoi self !! token = None -> vector !! j = Some (unknown_index self))
  /\ (forall vectors, fst (batch_encode sequences self) = Ok vectors ->
        length vectors = length (yields g)
        /\ forall (i j : nat) (tokens : list Spacy.Token) (token : Spacy.Token),
             yields g !! i = Some tokens -> tokens !! j = Some token ->
             stoi self !! Spacy.text token = None ->
             exists vector, vectors !! i = Some vector
                            /\ Torch.data vector !! j = Some (unknown_index self))
  /\ (raised g = None -> indices_fit self ->
      exists vectors, batch_encode sequences self = (Ok vectors, self))
  /\ (forall e, fst (batch_encode sequences self) = Raise e ->
        raised g = Some e \/ (e = Torch.overflow /\ ~ indices_fit self)).
Proof.
  intros g. split; [|split; [|split]].
  - intros text. exists (map (index_of self) text).
    split; [apply lookup_tokens_run|]. split; [apply length_map|].
    intros j token Hj Habsent.
    change (map (index_of self) text) with (index_of self <$> text).
    by rewrite list_lookup_fmap, Hj, <- (index_of_absent _ _ Habsent).
  - intros vectors Hrun. split.
    + rewrite batch_encode_run in Hrun. cbn [fst] in Hrun.
      apply encode_docs_Ok in Hrun as [_ Hall]. symmetry. by eapply Forall2_length.
    + intros i j tokens token Hi Hj Habsent. eexists.
      split; [by eapply returned_vector|]. cbn [Torch.data].
      rewrite <- (index_of_absent _ _ Habsent). apply vector_of_lookup.
      change (map Spacy.text tokens) with (Spacy.text <$> tokens).
      by rewrite list_lookup_fmap, Hj.
  - apply batch_encode_returns.
  - intros e. rewrite batch_encode_run. cbn [fst]. apply encode_docs_Raise.
Qed.

(** C8.  In what [batch_encode] returns there is one vector for each [Doc]
    that the tokenizer yielded.  On an adapter with [append_eos] set, each
    vector is the indices of the tokens followed by [eos_index], so it ends
    with [eos_index]; on one with [append_eos] unset, each vector is the
    indices of the tokens and nothing more, so it is as long as the token
    sequence.  [batch_encode] returns whenever the tokenizer ends without an
    exception and the indices of the adapter fit in 64 bits. *)
Theorem eos_marker (self : SpacyEncoder) (sequences : list string) :
  let g := Spacy.pipe (spacy self) sequences (-1) in
  (forall vectors, fst (batch_encode sequences self) = Ok vectors ->
     Forall2 (fun (tokens : list Spacy.Token) (vector : Torch.Tensor) =>
       let indices :=
         map (fun token => dict_get (stoi self) (Spacy.text token) (unknown_index self))
             tokens in
       if append_eos self
       then Torch.data vector = indices ++ [eos_index self]
            /\ last (Torch.data vector) = Some (eos_index self)
            /\ length (Torch.data vector) = S (length tokens)
       else Torch.data vector = indices
            /\ length (Torch.data vector) = length tokens) (yields g) vectors)
  /\ (raised g = None -> indices_fit self ->
      exists vectors, batch_encode sequences self = (Ok vectors, self)).
Proof.
  intros g. split; [|apply batch_encode_returns].
  intros vectors Hrun. rewrite batch_encode_run in Hrun. cbn [fst] in Hrun.
  apply encode_docs_Ok in Hrun as [_ Hall].
  eapply Forall2_impl; [exact Hall|]. intros tokens vector Hdoc. cbv zeta.
  rewrite (encode_doc_Ok _ _ _ Hdoc). cbn [Torch.data].
  unfold vector_of, index_of. rewrite map_map.
  destruct (append_eos self).
  - split; [done|]. split; [apply last_snoc|].
    rewrite length_app, length_map. cbn. lia.
  - split; [done|]. by rewrite length_map.
Qed.

(** C9.  [batch_encode] hands the adapter back as it received it, whether
    it returns or raises: the tokenizer handle, the vocabulary mapping, the
    unknown index, the end-of-sequence index and the append flag are the
    ones from before the call.  So in any series of calls on one adapter,
    every call runs on the adapter as constructed, with the same tokenizer
    and the same vocabulary. *)
Theorem batch_encode_frame (self : SpacyEncoder) (sequences : list string)
    (calls : list (list string)) :
  let self' := snd (batch_encode sequences self) in
  self' = self
  /\ spacy self' = spacy self
  /\ stoi self' = stoi self
  /\ unknown_index self' = unknown_index self
  /\ eos_index self' = eos_index self
  /\ append_eos self' = append_eos self
  /\ snd (batch_encode_calls calls self) = self
  /\ fst (batch_encode_calls calls self)
     = map (fun sequences => fst (batch_encode sequences self)) calls.
Proof.
  cbv zeta. rewrite batch_encode_run. cbn [snd]. repeat (split; [done|]).
  induction calls as [|l calls [IHs IHf]]; [done|].
  cbn [batch_encode_calls map]. rewrite batch_encode_run.
  destruct (batch_encode_calls calls self) as [rs self''].
  cbn [fst snd] in *. by rewrite IHs, IHf.
Qed.

(** ** The batch path in the small runtime *)


Lemma demo_pipe_streams_call : Spacy.pipe_streams_call Demo.nlp.
Proof. intros texts n_threads. reflexivity. Qed.

Lemma demo_vocabulary_fits (token : string) (z : Z) :
  Demo.vocabulary !! token = Some z -> - 2 ^ 63 <= z < 2 ^ 63.
Proof.
  revert token z. apply map_Forall_to_list.
  set (l := map_to_list Demo.vocabulary). vm_compute in l. subst l.
  repeat (constructor; [split; by vm_compute|]). constructor.
Qed.

Lemma demo_indices_fit : indices_fit Demo.encoder.
Proof.
  split; [exact demo_vocabulary_fits|]. split; [split; by vm_compute|].
  intros H. discriminate H.
Qed.

Lemma demo_eos_indices_fit : indices_fit Demo.encoder_eos.
Proof.
  split; [exact demo_vocabulary_fits|]. split; [split; by vm_compute|].
  intros _. split; by vm_compute.
Qed.



Lemma absent_tokens_get_unknown_index_witness :
  exists vectors vector,
    batch_encode ["Do it ."] Demo.encoder = (Ok vectors, Demo.encoder)
    /\ vectors !! 0%nat = Some vector
    /\ Torch.data vector !! 1%nat = Some 1.
Proof.
  destruct (absent_tokens_get_unknown_index Demo.encoder ["Do it ."])
    as (_ & Hreturned & Hreturns & _).
  destruct (Hreturns eq_refl demo_indices_fit) as [vectors Hrun].
  destruct (proj2 (Hreturned vectors ltac:(by rewrite Hrun)) 0%nat 1%nat
              [Spacy.mkToken "Do" 0; Spacy.mkToken "it" 3; Spacy.mkToken "." 6]
              (Spacy.mkToken "it" 3) eq_refl eq_refl
              ltac:(vm_compute; reflexivity))
    as (vector & Hvector & Hindex).
  exists vectors, vector. split; [exact Hrun|]. split; [exact Hvector|exact Hindex].
Defined.

Lemma eos_marker_witness :
  exists vectors,
    batch_encode ["Do it ."] Demo.encoder_eos = (Ok vectors, Demo.encoder_eos)
    /\ Forall2 (fun (tokens : list Spacy.Token) (vector : Torch.Tensor) =>
                  last (Torch.data vector) = Some 2)
         [[Spacy.mkToken "Do" 0; Spacy.mkToken "it" 3; Spacy.mkToken "." 6]] vectors.
Proof.
  destruct (eos_marker Demo.encoder_eos ["Do it ."]) as [Hreturned Hreturns].
  destruct (Hreturns eq_refl demo_eos_indices_fit) as [vectors Hrun].
  exists vectors. split; [exact Hrun|].
  eapply Forall2_impl; [exact (Hreturned vectors ltac:(by rewrite Hrun))|].
  intros tokens vector H. exact (proj1 (proj2 H)).
Defined.

Example construct_encoder_wide_eos :
  __init__ Demo.base_init Demo.with_spacy [Demo.sample] Demo.wide_eos
  = ([Import_spacy; Load (PyStr "en") disabled; Super_init], Ok Demo.encoder_wide_eos).
Proof. vm_compute. reflexivity. Qed.

Example construct_encoder_wide_unknown :
  __init__ Demo.base_init Demo.with_spacy [Demo.sample] Demo.wide_unknown
  = ([Import_spacy; Load (PyStr "en") disabled; Super_init],
     Ok Demo.encoder_wide_unknown).
Proof. vm_compute. reflexivity. Qed.


(** C7 as stated fails: on the adapter of [SpacyEncoder(sample,
    unknown_index=2**63)], the token ['it'] is absent from the vocabulary
    and the tokenizer yields its [Doc] without an exception, yet
    [batch_encode] raises: [torch.tensor] rejects the unknown index that
    stands for the token. *)
Lemma batch_encode_wide_unknown_raises :
  stoi Demo.encoder_wide_unknown !! "it" = None
  /\ Spacy.pipe (spacy Demo.encoder_wide_unknown) ["Do it ."] (-1)
     = mkGenerator [[Spacy.mkToken "Do" 0; Spacy.mkToken "it" 3; Spacy.mkToken "." 6]] None
  /\ vector_of Demo.encoder_wide_unknown ["Do"; "it"; "."] = [10; 2 ^ 63; 9]
  /\ batch_encode ["Do it ."] Demo.encoder_wide_unknown
     = (Raise (mkExc RuntimeError "Overflow when unpacking long"),
        Demo.encoder_wide_unknown).
Proof.
  split; [by vm_compute|]. split; [reflexivity|]. split; by vm_compute.
Qed.

Example batch_encode_eos :
  fst (batch_encode ["This ai n't funny ."; "Do it ."; EmptyString] Demo.encoder_eos)
  = Ok [Torch.LongTensor [5; 6; 7; 8; 9; 2]; Torch.LongTensor [10; 1; 9; 2];
        Torch.LongTensor [2]].
Proof. vm_compute. reflexivity. Qed.

Example encode_docstring :
  fst (encode "This ai n't funny ." Demo.encoder) = Ok (Torch.LongTensor [5; 6; 7; 8; 9]).
Proof. vm_compute. reflexivity. Qed.

(** ** More on the constructor *)

Section ConstructorCases.

Variable base_init :
  list PyVal -> (string -> PyResult (list string)) -> gmap string PyVal -> PyResult Vocabulary.

Implicit Types (rt : Runtime) (args : list PyVal) (kwargs : gmap string PyVal).

(** The constructor, branch by branch. *)
Ltac init_cases rt kwargs :=
  unfold __init__;
  destruct (dict_contains kwargs "tokenize") eqn:Htok;
  [|destruct (import_spacy rt) as [pkg|e0] eqn:Himp;
    [destruct (py_in (dict_get kwargs "language" (PyStr "en")) supported_languages) eqn:Hin;
     [destruct (Spacy.load pkg (dict_get kwargs "language" (PyStr "en")) disabled)
        as [nlp|e1] eqn:Hload;
      [|destruct (issubclass (exc_type e1) OSError) eqn:Hos]|]
    |destruct (issubclass (exc_type e0) ImportError) eqn:Hsub]].

(** X1.  Without a [language] keyword the constructor loads the English
    model: past the first check and the import, it calls [spacy.load] on
    ['en'] with the parser, the tagger and the entity recogniser disabled,
    and the tokenizer of an adapter it returns is the model of that call. *)
Theorem default_language_is_english rt args kwargs (pkg : Spacy.Package) :
  kwargs !! "tokenize" = None ->
  kwargs !! "language" = None ->
  import_spacy rt = Ok pkg ->
  exists rest r,
    __init__ base_init rt args kwargs
    = (Import_spacy :: Load (PyStr "en") ["parser"; "tagger"; "ner"]%string :: rest, r)
    /\ forall self, r = Ok self ->
         Spacy.load pkg (PyStr "en") ["parser"; "tagger"; "ner"]%string = Ok (spacy self).
Proof.
  intros Hno Hlang Himp'. unfold __init__.
  rewrite (proj2 (dict_contains_false _ _) Hno), Himp', (dict_get_None _ _ _ Hlang).
  change (py_in (PyStr "en") supported_languages) with true. cbv iota.
  change disabled with ["parser"; "tagger"; "ner"]%string.
  destruct (Spacy.load pkg (PyStr "en") _) as [nlp|e].
  - eexists _, _. split; [reflexivity|]. intros self Hself.
    destruct (base_init args _ kwargs) as [v|e]; [|done].
    by injection Hself as <-.
  - destruct (issubclass (exc_type e) OSError); eexists _, _; (split; [reflexivity|done]).
Qed.

(** X2.  The constructor returns an adapter exactly when every step went
    through: no [tokenize] keyword, spaCy imported, the language among the
    supported ones, its model loaded, and the base constructor returned,
    having been handed the positional arguments, [_tokenize] over the loaded
    model and the keyword arguments as they came.  The adapter then holds
    the loaded model, that tokenizing function and the base constructor's
    vocabulary. *)
Theorem construction_succeeds_iff rt args kwargs (log : list Event) (self : SpacyEncoder) :
  let language := dict_get kwargs "language" (PyStr "en") in
  __init__ base_init rt args kwargs = (log, Ok self)
  <-> kwargs !! "tokenize" = None
      /\ exists pkg v,
          import_spacy rt = Ok pkg
          /\ py_in language supported_languages = true
          /\ Spacy.load pkg language disabled = Ok (spacy self)
          /\ base_init args (fun s => _tokenize s (spacy self)) kwargs = Ok v
          /\ self = {| spacy := spacy self;
                       tokenize := fun s => _tokenize s (spacy self);
                       stoi := v_stoi v; unknown_index := v_unknown_index v;
                       eos_index := v_eos_index v; append_eos := v_append_eos v |}
          /\ log = [Import_spacy; Load language disabled; Super_init].
Proof.
  intros language. split.
  - init_cases rt kwargs; try done.
    destruct (base_init args _ kwargs) as [v|e] eqn:Hbase; [|done].
    intros [= <- <-]. split; [by apply dict_contains_false|].
    by exists pkg, v.
  - intros (Hno & pkg & v & Himp & Hin & Hload & Hbase & Hself & ->).
    unfold __init__. fold language.
    rewrite (proj2 (dict_contains_false _ _) Hno), Himp, Hin, Hload, Hbase.
    cbn [mbind PyResult_bind mret PyResult_ret]. by rewrite <- Hself.
Qed.

(** X3.  Only an [OSError] of [spacy.load] is turned into the
    language-not-found error: an exception of another class that the load
    raises leaves the constructor as it is. *)
Theorem load_error_propagates rt args kwargs (pkg : Spacy.Package) (e : PyExc) :
  let language := dict_get kwargs "language" (PyStr "en") in
  kwargs !! "tokenize" = None ->
  import_spacy rt = Ok pkg ->
  py_in language supported_languages = true ->
  Spacy.load pkg language disabled = Raise e ->
  issubclass (exc_type e) OSError = false ->
  __init__ base_init rt args kwargs = ([Import_spacy; Load language disabled], Raise e).
Proof.
  intros language Hno Himp Hin Hload Hos. unfold __init__. fold language.
  by rewrite (proj2 (dict_contains_false _ _) Hno), Himp, Hin, Hload, Hos.
Qed.

(** X4.  The constructor prints in one case only: the installation guidance,
    when there is no [tokenize] keyword and [import spacy] raises an
    [ImportError].  An import that fails with another exception, and every
    other failure, prints nothing. *)
Theorem guidance_printed_iff rt args kwargs (line : string) :
  Print line ∈ fst (__init__ base_init rt args kwargs)
  <-> line = install_message
      /\ kwargs !! "tokenize" = None
      /\ exists e, import_spacy rt = Raise e /\ issubclass (exc_type e) ImportError = true.
Proof.
  split.
  - init_cases rt kwargs; cbn [fst]; rewrite ?elem_of_cons, ?elem_of_nil;
      intros Hprint; try (by intuition discriminate).
    destruct Hprint as [[=]|[[= ->]|[]]].
    split; [done|]. split; [by apply dict_contains_false|]. by exists e0.
  - intros (-> & Hno & e & Himp & Hsub). unfold __init__.
    rewrite (proj2 (dict_contains_false _ _) Hno), Himp, Hsub. cbn [fst].
    apply list_elem_of_further, list_elem_of_here.
Qed.

(** X5.  A [language] keyword whose value is no string is not replaced by
    the default: with [language=None], a number, a list or a function, a
    call that gets past the first check and the import is rejected as an
    unsupported language, the message holding the value as [str] prints
    it. *)
Theorem non_string_language_rejected rt args kwargs (pkg : Spacy.Package) (x : PyVal) :
  kwargs !! "tokenize" = None ->
  import_spacy rt = Ok pkg ->
  kwargs !! "language" = Some x ->
  (forall code, x <> PyStr code) ->
  __init__ base_init rt args kwargs
  = ([Import_spacy],
     Raise (mkExc ValueError
              ("No tokenizer available for language '" +:+ repr x
               +:+ "'. Currently supported are ['en', 'de', 'es', 'pt', 'fr', 'it', 'nl', 'xx']"))).
Proof.
  intros Hno Himp Hlang Hx. unfold __init__.
  rewrite (proj2 (dict_contains_false _ _) Hno), Himp, (dict_get_Some _ _ _ _ Hlang).
  assert (py_in x supported_languages = false) as ->.
  { apply not_true_is_false. intros Hin.
    apply py_in_supported in Hin as (code & -> & _). by apply (Hx code). }
  do 3 f_equal. unfold unsupported_message. f_equal.
  destruct x; try reflexivity. by destruct (Hx s).
Qed.

(** X6.  [spacy.load] is called only past the first check and the import,
    only on the language of the call, which is then one of the eight
    supported codes, and only with the parser, the tagger and the entity
    recogniser disabled. *)
Theorem load_only_for_supported_language rt args kwargs (name : PyVal)
    (disable : list string) :
  Load name disable ∈ fst (__init__ base_init rt args kwargs) ->
  kwargs !! "tokenize" = None
  /\ (exists pkg, import_spacy rt = Ok pkg)
  /\ name = dict_get kwargs "language" (PyStr "en")
  /\ (exists code, name = PyStr code
                   /\ code ∈ ["en"; "de"; "es"; "pt"; "fr"; "it"; "nl"; "xx"]%string)
  /\ disable = ["parser"; "tagger"; "ner"]%string.
Proof.
  init_cases rt kwargs; cbn [fst]; rewrite ?elem_of_cons, ?elem_of_nil;
    intros Hload'; try (by intuition discriminate).
  all: destruct Hload' as [[=]|[[= -> ->]|Hrest]];
    [|exfalso; by intuition discriminate].
  all: split; [by apply dict_contains_false|]; split; [by exists pkg|];
    split; [done|]; split; [by apply py_in_supported|done].
Qed.

(** X7.  Every exception that leaves the constructor is one of: the
    [TypeError] for a [tokenize] keyword; the exception of the failed import;
    the [ValueError] for an unsupported language; the [ValueError] for a
    model whose load raised an [OSError]; another exception of the load; an
    exception of the base constructor. *)
Theorem constructor_failure_cases rt args kwargs (log : list Event) (e : PyExc) :
  let language := dict_get kwargs "language" (PyStr "en") in
  __init__ base_init rt args kwargs = (log, Raise e) ->
  (is_Some (kwargs !! "tokenize") /\ e = mkExc TypeError tokenize_message)
  \/ (kwargs !! "tokenize" = None /\ import_spacy rt = Raise e)
  \/ (kwargs !! "tokenize" = None
      /\ exists pkg, import_spacy rt = Ok pkg
         /\ ((py_in language supported_languages = false
              /\ e = mkExc ValueError (unsupported_message language supported_languages))
             \/ (py_in language supported_languages = true
                 /\ exists e', Spacy.load pkg language disabled = Raise e'
                    /\ ((issubclass (exc_type e') OSError = true
                         /\ e = mkExc ValueError (not_found_message language))
                        \/ (issubclass (exc_type e') OSError = false /\ e = e')))
             \/ (py_in language supported_languages = true
                 /\ exists nlp, Spacy.load pkg language disabled = Ok nlp
                    /\ base_init args (fun s => _tokenize s nlp) kwargs = Raise e))).
Proof.
  intros language. unfold language. init_cases rt kwargs.
  - intros [= _ <-]. left. split; [by apply dict_contains_true|done].
  - destruct (base_init args _ kwargs) as [v|e'] eqn:Hbase; [done|].
    intros [= _ <-]. right. right. split; [by apply dict_contains_false|].
    exists pkg. split; [done|]. right. right. split; [done|]. by exists nlp.
  - intros [= _ <-]. right. right. split; [by apply dict_contains_false|].
    exists pkg. split; [done|]. right. left. split; [done|]. exists e1.
    split; [done|]. by left.
  - intros [= _ <-]. right. right. split; [by apply dict_contains_false|].
    exists pkg. split; [done|]. right. left. split; [done|]. exists e1.
    split; [done|]. by right.
  - intros [= _ <-]. right. right. split; [by apply dict_contains_false|].
    exists pkg. split; [done|]. by left.
  - intros [= _ <-]. right. left. split; [by apply dict_contains_false|done].
  - intros [= _ <-]. right. left. split; [by apply dict_contains_false|done].
Qed.

(** X15.  The base constructor is called only with a loaded model in hand:
    its call appears among the effects exactly when there is no [tokenize]
    keyword, spaCy was imported, the language is supported and its model
    was loaded; the constructor's outcome is then the base constructor's,
    an exception of it included. *)
Theorem base_called_iff_model_loaded rt args kwargs :
  let language := dict_get kwargs "language" (PyStr "en") in
  Super_init ∈ fst (__init__ base_init rt args kwargs)
  <-> kwargs !! "tokenize" = None
      /\ exists pkg nlp,
          import_spacy rt = Ok pkg
          /\ py_in language supported_languages = true
          /\ Spacy.load pkg language disabled = Ok nlp
          /\ forall e, base_init args (fun s => _tokenize s nlp) kwargs = Raise e ->
               snd (__init__ base_init rt args kwargs) = Raise e.
Proof.
  intros language. unfold language. split.
  - init_cases rt kwargs; cbn [fst snd]; rewrite ?elem_of_cons, ?elem_of_nil;
      intros Hsuper; try (by intuition discriminate).
    split; [by apply dict_contains_false|]. exists pkg, nlp.
    do 3 (split; [done|]). by intros e ->.
  - intros (Hno & pkg & nlp & Himp & Hin & Hload & _). unfold __init__.
    rewrite (proj2 (dict_contains_false _ _) Hno), Himp, Hin, Hload. cbn [fst].
    do 2 apply list_elem_of_further. apply list_elem_of_here.
Qed.

End ConstructorCases.

(** ** More on the batch path and on [_tokenize] *)

(** X8.  On the empty list, under spaCy's contract for [pipe],
    [batch_encode] returns the empty list and leaves the adapter as it
    is. *)
Theorem batch_encode_empty (self : SpacyEncoder) :
  Spacy.pipe_streams_call (spacy self) ->
  batch_encode [] self = (Ok [], self).
Proof. intros Hpipe. by rewrite (batch_encode_streams _ _ Hpipe). Qed.

(** X9.  Under spaCy's contract for [pipe], a batch can be cut in two: the
    outcome of [batch_encode] on [xs ++ ys] is the tensors for [xs] followed
    by the tensors for [ys], or the first exception met on the way. *)
Theorem batch_encode_app (self : SpacyEncoder) (xs ys : list string) :
  Spacy.pipe_streams_call (spacy self) ->
  fst (batch_encode (xs ++ ys) self)
  = (a ← fst (batch_encode xs self); b ← fst (batch_encode ys self); mret (a ++ b)).
Proof.
  intros Hpipe. rewrite !(batch_encode_streams _ _ Hpipe). cbn [fst].
  apply mapM_app_result.
Qed.

(** X10.  In what [batch_encode] returns, a token whose text is a key of
    the vocabulary is encoded by the index stored for it, at the token's
    place in the vector of its [Doc]. *)
Theorem known_tokens_get_their_index (self : SpacyEncoder) (sequences : list string)
    (vectors : list Torch.Tensor) (i j : nat) (tokens : list Spacy.Token)
    (token : Spacy.Token) (z : Z) :
  fst (batch_encode sequences self) = Ok vectors ->
  yields (Spacy.pipe (spacy self) sequences (-1)) !! i = Some tokens ->
  tokens !! j = Some token ->
  stoi self !! Spacy.text token = Some z ->
  exists vector, vectors !! i = Some vector /\ Torch.data vector !! j = Some z.
Proof.
  intros Hrun Hi Hj Hz. eexists. split; [by eapply returned_vector|].
  cbn [Torch.data].
  replace z with (index_of self (Spacy.text token))
    by (unfold index_of; by apply dict_get_Some).
  apply vector_of_lookup.
  change (map Spacy.text tokens) with (Spacy.text <$> tokens).
  by rewrite list_lookup_fmap, Hj.
Qed.

(** X11.  Every number in a vector that [batch_encode] returns is an index
    stored in the vocabulary, or the unknown index, or, on an adapter with
    [append_eos] set, the end-of-sequence index; and it fits in 64 bits. *)
Theorem vector_indices_from_vocabulary (self : SpacyEncoder) (sequences : list string)
    (vectors : list Torch.Tensor) (vector : Torch.Tensor) (z : Z) :
  fst (batch_encode sequences self) = Ok vectors ->
  vector ∈ vectors ->
  z ∈ Torch.data vector ->
  ((exists token, stoi self !! token = Some z)
   \/ z = unknown_index self
   \/ (append_eos self = true /\ z = eos_index self))
  /\ - 2 ^ 63 <= z < 2 ^ 63.
Proof.
  rewrite batch_encode_run. cbn [fst]. intros [_ Hall]%encode_docs_Ok Hvector Hz.
  apply list_elem_of_lookup in Hvector as [i Hi].
  destruct (Forall2_lookup_r _ _ _ _ _ Hall Hi) as (tokens & _ & Hdoc).
  pose proof (encode_doc_Ok _ _ _ Hdoc) as ->. cbn [Torch.data] in Hz.
  split; [by eapply vector_of_elem|].
  unfold encode_doc, Torch.tensor in Hdoc.
  destruct (forallb Torch.in_int64 _) eqn:Hfit; [|done].
  rewrite forallb_forall in Hfit. apply list_elem_of_In, Hfit in Hz.
  unfold Torch.in_int64 in Hz. apply andb_prop in Hz as [Hlo Hhi].
  apply bool_decide_eq_true in Hlo, Hhi. by split.
Qed.

(** X12.  [batch_encode] reads the tokenizer, the vocabulary, the unknown
    index and the append flag, and the end-of-sequence index only when the
    flag is set: two adapters that agree on these give the same outcome on
    every list, whatever their tokenizing functions are. *)
Theorem batch_encode_reads (self self' : SpacyEncoder) (sequences : list string) :
  spacy self = spacy self' ->
  stoi self = stoi self' ->
  unknown_index self = unknown_index self' ->
  append_eos self = append_eos self' ->
  (append_eos self = true -> eos_index self = eos_index self') ->
  fst (batch_encode sequences self) = fst (batch_encode sequences self').
Proof.
  intros Hspacy Hstoi Hunknown Hflag Heos. rewrite !batch_encode_run. cbn [fst].
  rewrite <- Hspacy. unfold encode_docs. f_equal.
  apply mapM_ext_result. intros tokens.
  unfold encode_doc, vector_of, index_of.
  rewrite <- Hstoi, <- Hunknown, <- Hflag.
  destruct (append_eos self); [|done]. by rewrite Heos.
Qed.

(** X13.  [_tokenize] gives the texts of the tokens of [tokenizer(s)], one
    for each token and in their order, and raises exactly when the
    tokenizer raises, with the tokenizer's exception. *)
Theorem tokenize_texts_in_order (tokenizer : Spacy.Language) (s : string) :
  (forall tokens, Spacy.call tokenizer s = Ok tokens ->
     exists text, _tokenize s tokenizer = Ok text
       /\ length text = length tokens
       /\ forall (j : nat) (token : Spacy.Token),
            tokens !! j = Some token -> text !! j = Some (Spacy.text token))
  /\ (forall e, Spacy.call tokenizer s = Raise e <-> _tokenize s tokenizer = Raise e).
Proof.
  unfold _tokenize, mbind, PyResult_bind, mret, PyResult_ret. split.
  - intros tokens ->. exists (map Spacy.text tokens).
    split; [done|]. split; [apply length_map|].
    intros j token Hj. change (map Spacy.text tokens) with (Spacy.text <$> tokens).
    by rewrite list_lookup_fmap, Hj.
  - intros e. destruct (Spacy.call tokenizer s); split; congruence.
Qed.

(** X14.  Under spaCy's contract for [pipe], the batch path on one string
    sees the tokens that [_tokenize] sees: [batch_encode([s])] is the
    one-element list of the tensor of the vector of the texts
    [_tokenize(s, self.spacy)]; it raises what [_tokenize] raises, and
    otherwise what [torch.tensor] raises on that vector. *)
Theorem batch_encode_one_by_tokenize (self : SpacyEncoder) (s : string) :
  Spacy.pipe_streams_call (spacy self) ->
  fst (batch_encode [s] self)
  = (text ← _tokenize s (spacy self);
     vector ← Torch.tensor (vector_of self text);
     mret [vector]).
Proof.
  intros Hpipe. rewrite (batch_encode_streams _ _ Hpipe). cbn [fst].
  rewrite mapM_cons. unfold _tokenize, mbind, PyResult_bind, mret, PyResult_ret.
  destruct (Spacy.call (spacy self) s) as [tokens|e]; [|done].
  unfold encode_doc. by destruct (Torch.tensor _).
Qed.

(** ** The further properties in the small runtime *)

Lemma empty_no_tokenize : (∅ : gmap string PyVal) !! "tokenize" = None.
Proof. vm_compute. reflexivity. Qed.

Lemma empty_no_language : (∅ : gmap string PyVal) !! "language" = None.
Proof. vm_compute. reflexivity. Qed.

Lemma default_language_is_english_witness :
  exists rest r,
    __init__ Demo.base_init Demo.with_spacy [Demo.sample] ∅
    = (Import_spacy :: Load (PyStr "en") ["parser"; "tagger"; "ner"]%string :: rest, r)
    /\ forall self, r = Ok self ->
         Spacy.load Demo.package (PyStr "en") ["parser"; "tagger"; "ner"]%string
         = Ok (spacy self).
Proof.
  exact (default_language_is_english Demo.base_init Demo.with_spacy [Demo.sample] ∅
           Demo.package empty_no_tokenize empty_no_language eq_refl).
Defined.

Lemma construction_succeeds_iff_witness :
  (∅ : gmap string PyVal) !! "tokenize" = None
  /\ exists pkg v,
      import_spacy Demo.with_spacy = Ok pkg
      /\ py_in (dict_get (∅ : gmap string PyVal) "language" (PyStr "en")) supported_languages
         = true
      /\ Spacy.load pkg (dict_get (∅ : gmap string PyVal) "language" (PyStr "en")) disabled
         = Ok Demo.nlp
      /\ Demo.base_init [Demo.sample] (fun s => _tokenize s Demo.nlp) ∅ = Ok v
      /\ Demo.encoder
         = {| spacy := Demo.nlp; tokenize := fun s => _tokenize s Demo.nlp;
              stoi := v_stoi v; unknown_index := v_unknown_index v;
              eos_index := v_eos_index v; append_eos := v_append_eos v |}
      /\ [Import_spacy; Load (PyStr "en") disabled; Super_init]
         = [Import_spacy;
            Load (dict_get (∅ : gmap string PyVal) "language" (PyStr "en")) disabled;
            Super_init].
Proof.
  exact (proj1 (construction_succeeds_iff Demo.base_init Demo.with_spacy [Demo.sample] ∅
                  [Import_spacy; Load (PyStr "en") disabled; Super_init] Demo.encoder)
           construct_encoder).
Defined.

Lemma load_error_propagates_witness :
  __init__ Demo.base_init Demo.with_damaged_spacy [Demo.sample] ∅
  = ([Import_spacy; Load (PyStr "en") disabled],
     Raise (mkExc RuntimeError "invalid model data")).
Proof.
  exact (load_error_propagates Demo.base_init Demo.with_damaged_spacy [Demo.sample] ∅
           Demo.damaged_package (mkExc RuntimeError "invalid model data")
           empty_no_tokenize eq_refl eq_refl eq_refl eq_refl).
Defined.

Lemma guidance_printed_iff_witness :
  Print "Please install spaCy: `pip install spacy`"
  ∈ fst (__init__ Demo.base_init Demo.without_spacy [Demo.sample] ∅).
Proof.
  apply (proj2 (guidance_printed_iff Demo.base_init Demo.without_spacy [Demo.sample] ∅
                  "Please install spaCy: `pip install spacy`")).
  split; [reflexivity|]. split; [exact empty_no_tokenize|].
  exists (mkExc ModuleNotFoundError "No module named 'spacy'").
  split; reflexivity.
Defined.

Lemma non_string_language_rejected_witness :
  __init__ Demo.base_init Demo.with_spacy [Demo.sample] Demo.none_language
  = ([Import_spacy],
     Raise (mkExc ValueError
              "No tokenizer available for language 'None'. Currently supported are ['en', 'de', 'es', 'pt', 'fr', 'it', 'nl', 'xx']")).
Proof.
  assert (Demo.none_language !! "tokenize" = None) as Hno by (vm_compute; reflexivity).
  assert (Demo.none_language !! "language" = Some PyNone) as Hlang
    by (vm_compute; reflexivity).
  exact (non_string_language_rejected Demo.base_init Demo.with_spacy [Demo.sample]
           Demo.none_language Demo.package PyNone Hno eq_refl Hlang
           (fun code H => match H with end)).
Defined.

Lemma german_run :
  __init__ Demo.base_init Demo.with_spacy [Demo.sample] Demo.german
  = ([Import_spacy; Load (PyStr "de") disabled],
     Raise (mkExc ValueError
              "Language 'de' not found. Install using spaCy: `python -m spacy download de`")).
Proof. vm_compute. reflexivity. Qed.

Lemma load_only_for_supported_language_witness :
  Demo.german !! "tokenize" = None
  /\ (exists pkg, import_spacy Demo.with_spacy = Ok pkg)
  /\ PyStr "de" = dict_get Demo.german "language" (PyStr "en")
  /\ (exists code, PyStr "de" = PyStr code
                   /\ code ∈ ["en"; "de"; "es"; "pt"; "fr"; "it"; "nl"; "xx"]%string)
  /\ disabled = ["parser"; "tagger"; "ner"]%string.
Proof.
  apply (load_only_for_supported_language Demo.base_init Demo.with_spacy [Demo.sample]
           Demo.german (PyStr "de") disabled).
  rewrite german_run. cbn [fst]. apply list_elem_of_further, list_elem_of_here.
Defined.

Lemma constructor_failure_cases_witness :
  (is_Some (Demo.german !! "tokenize")
   /\ mkExc ValueError
        "Language 'de' not found. Install using spaCy: `python -m spacy download de`"
      = mkExc TypeError tokenize_message)
  \/ (Demo.german !! "tokenize" = None
      /\ import_spacy Demo.with_spacy
         = Raise (mkExc ValueError
                    "Language 'de' not found. Install using spaCy: `python -m spacy download de`"))
  \/ (Demo.german !! "tokenize" = None /\ exists pkg, import_spacy Demo.with_spacy = Ok pkg).
Proof.
  destruct (constructor_failure_cases Demo.base_init Demo.with_spacy [Demo.sample]
              Demo.german _ _ german_run) as [H|[H|(Hno & pkg & Himp & _)]].
  - left. exact H.
  - right. left. exact H.
  - right. right. split; [exact Hno|]. exists pkg. exact Himp.
Defined.

Lemma base_called_iff_model_loaded_witness :
  Super_init ∈ fst (__init__ Demo.base_init Demo.with_spacy [Demo.sample] ∅).
Proof.
  apply (proj2 (base_called_iff_model_loaded Demo.base_init Demo.with_spacy
                  [Demo.sample] ∅)).
  split; [exact empty_no_tokenize|]. exists Demo.package, Demo.nlp.
  split; [reflexivity|]. split; [reflexivity|]. split; [reflexivity|].
  intros e He. vm_compute in He. discriminate He.
Defined.

Lemma batch_encode_empty_witness :
  batch_encode [] Demo.encoder = (Ok [], Demo.encoder).
Proof. exact (batch_encode_empty Demo.encoder demo_pipe_streams_call). Defined.

Lemma batch_encode_app_witness :
  fst (batch_encode (["This ai n't funny ."] ++ ["Do it ."; "?"]) Demo.encoder)
  = (a ← fst (batch_encode ["This ai n't funny ."] Demo.encoder);
     b ← fst (batch_encode ["Do it ."; "?"] Demo.encoder);
     mret (a ++ b)).
Proof.
  exact (batch_encode_app Demo.encoder ["This ai n't funny ."] ["Do it ."; "?"]
           demo_pipe_streams_call).
Defined.

Lemma batch_encode_reads_witness :
  fst (batch_encode ["Do it ."]
         {| spacy := Demo.nlp; tokenize := fun _ => Ok []; stoi := Demo.vocabulary;
            unknown_index := 1; eos_index := 7; append_eos := false |})
  = fst (batch_encode ["Do it ."] Demo.encoder).
Proof.
  apply batch_encode_reads; try reflexivity. intros H. discriminate H.
Defined.

Lemma tokenize_texts_in_order_witness :
  exists text,
    _tokenize "Do it ." Demo.nlp = Ok text
    /\ length text = 3%nat
    /\ text !! 1%nat = Some "it".
Proof.
  destruct (proj1 (tokenize_texts_in_order Demo.nlp "Do it .")
              [Spacy.mkToken "Do" 0; Spacy.mkToken "it" 3; Spacy.mkToken "." 6] eq_refl)
    as (text & Hrun & Hlen & Hat).
  exists text. split; [exact Hrun|]. split; [exact Hlen|].
  exact (Hat 1%nat (Spacy.mkToken "it" 3) eq_refl).
Defined.

Lemma do_it_run :
  fst (batch_encode ["Do it ."] Demo.encoder) = Ok [Torch.LongTensor [10; 1; 9]].
Proof. vm_compute. reflexivity. Qed.

Lemma known_tokens_get_their_index_witness :
  exists vector,
    [Torch.LongTensor [10; 1; 9]] !! 0%nat = Some vector
    /\ Torch.data vector !! 2%nat = Some 9.
Proof.
  exact (known_tokens_get_their_index Demo.encoder ["Do it ."]
           [Torch.LongTensor [10; 1; 9]] 0%nat 2%nat
           [Spacy.mkToken "Do" 0; Spacy.mkToken "it" 3; Spacy.mkToken "." 6]
           (Spacy.mkToken "." 6) 9 do_it_run eq_refl eq_refl eq_refl).
Defined.

Lemma vector_indices_from_vocabulary_witness :
  ((exists token, stoi Demo.encoder !! token = Some 10)
   \/ 10 = unknown_index Demo.encoder
   \/ (append_eos Demo.encoder = true /\ 10 = eos_index Demo.encoder))
  /\ - 2 ^ 63 <= 10 < 2 ^ 63.
Proof.
  apply (vector_indices_from_vocabulary Demo.encoder ["Do it ."]
           [Torch.LongTensor [10; 1; 9]] (Torch.LongTensor [10; 1; 9]) 10 do_it_run).
  - apply list_elem_of_here.
  - apply list_elem_of_here.
Defined.

Lemma batch_encode_one_by_tokenize_witness :
  fst (batch_encode ["Do it ."] Demo.encoder)
  = (text ← _tokenize "Do it ." Demo.nlp;
     vector ← Torch.tensor (vector_of Demo.encoder text);
     mret [vector]).
Proof.
  exact (batch_encode_one_by_tokenize Demo.encoder "Do it ." demo_pipe_streams_call).
Defined.

Example repr_escapes :
  repr (PyList [PyStr (String "128"%char "a'b"); PyStr (String "233"%char EmptyString)])
  = "[" +:+ String dquote ("\x80a'b" +:+ String dquote (", '" +:+ String "233"%char "']")).
Proof. vm_compute. reflexivity. Qed.
